(** * saleTracker backend: a shallow embedding and its verified properties

    The development follows the layout of [backend/app]:

    - [Py]: the fragment of the Python runtime the code relies on
      (exceptions, [min], [datetime], [uuid4]);
    - [Models]: [app/models/sales.py], the pydantic models and their
      field constraints;
    - [Cosmos]: the document container the service talks to
      (point operations by partition key and id, the queries the
      service issues, paged results);
    - [Json], [Base64]: JSON values with Python's truthiness, and the
      two decoders [app/auth/swa_auth.py] calls;
    - [SwaAuth]: [app/auth/swa_auth.py];
    - [CosmosService]: [app/services/cosmos_service.py];
    - [SalesApi], [DashboardApi], [Main]: [app/api/sales.py],
      [app/api/dashboard.py] and the exception handlers of [app/main.py].

    Amounts are Python floats in the source; they are rationals ([Q])
    here, so sums and averages are exact. *)

From Stdlib Require Import String Ascii List ZArith QArith Bool Lia Permutation.
From Stdlib Require Import Sorted.
Import ListNotations.

Open Scope string_scope.

(* ================================================================= *)
(** ** Python runtime fragment *)

Module Py.

(** Exceptions, by the classes the [except] clauses of the source tell
    apart.  [ValueError] stands for the class and its subclasses
    ([binascii.Error], [json.JSONDecodeError], [UnicodeDecodeError],
    pydantic's [ValidationError]). *)
Inductive exn : Type :=
| HTTPException (status_code : nat) (detail : string)
| ValueError (msg : string)
| RuntimeError (msg : string)
| AttributeError (msg : string)
| CosmosResourceExistsError (msg : string)
| CosmosResourceNotFoundError (msg : string).

(** [str(e)] *)
Definition str (e : exn) : string :=
  match e with
  | HTTPException _ d => d
  | ValueError m | RuntimeError m | AttributeError m
  | CosmosResourceExistsError m | CosmosResourceNotFoundError m => m
  end.

(** [isinstance(e, ValueError)] *)
Definition is_ValueError (e : exn) : bool :=
  match e with ValueError _ => true | _ => false end.

(** A computation either returns or raises. *)
Inductive result (A : Type) : Type :=
| Ok (a : A)
| Raise (e : exn).
Arguments Ok {A} a.
Arguments Raise {A} e.

Definition bind {A B} (m : result A) (k : A -> result B) : result B :=
  match m with Ok a => k a | Raise e => Raise e end.

(** [try: m  except cls as e: h e]; an exception outside [cls]
    propagates. *)
Definition try_except {A} (m : result A) (cls : exn -> bool)
                      (h : exn -> result A) : result A :=
  match m with
  | Ok a => Ok a
  | Raise e => if cls e then h e else Raise e
  end.

(** [try: m  except cls1 as e: h1 e  except cls2 as e: h2 e]: the
    first clause that matches handles the exception; what a handler
    raises is not handled again. *)
Definition try_except2 {A} (m : result A)
                       (cls1 : exn -> bool) (h1 : exn -> result A)
                       (cls2 : exn -> bool) (h2 : exn -> result A) : result A :=
  match m with
  | Ok a => Ok a
  | Raise e => if cls1 e then h1 e else if cls2 e then h2 e else Raise e
  end.

(** Every exception of the model is an [Exception]. *)
Definition is_Exception (e : exn) : bool := true.

Definition is_HTTPException (e : exn) : bool :=
  match e with HTTPException _ _ => true | _ => false end.

Definition is_CosmosResourceExistsError (e : exn) : bool :=
  match e with CosmosResourceExistsError _ => true | _ => false end.

Definition is_CosmosResourceNotFoundError (e : exn) : bool :=
  match e with CosmosResourceNotFoundError _ => true | _ => false end.

(** [[f(x) for x in l]]: the first failing element raises. *)
Fixpoint comprehension {A B} (f : A -> result B) (l : list A) : result (list B) :=
  match l with
  | [] => Ok []
  | x :: l' =>
      match f x with
      | Ok y => match comprehension f l' with
                | Ok r => Ok (y :: r)
                | Raise e => Raise e
                end
      | Raise e => Raise e
      end
  end.

(** Python's [min] on integers. *)
Definition min (a b : Z) : Z := if (b <? a)%Z then b else a.

(** Decimal rendering of [n] on [k] digits, zero padded ([%0kd]). *)
Fixpoint dec (k : nat) (n : nat) : string :=
  match k with
  | O => EmptyString
  | S k' => dec k' (n / 10) ++ String (ascii_of_nat (48 + n mod 10)) EmptyString
  end.

(** An aware [datetime] in UTC, as [datetime.now(timezone.utc)] returns. *)
Record datetime : Type := mkdatetime {
  year : nat; month : nat; day : nat;
  hour : nat; minute : nat; second : nat; microsecond : nat
}.

(** [dt.isoformat()] for a UTC datetime (years 1000 to 9999). *)
Definition isoformat (dt : datetime) : string :=
  dec 4 (year dt) ++ "-" ++ dec 2 (month dt) ++ "-" ++ dec 2 (day dt) ++ "T"
  ++ dec 2 (hour dt) ++ ":" ++ dec 2 (minute dt) ++ ":" ++ dec 2 (second dt)
  ++ (if Nat.eqb (microsecond dt) 0 then EmptyString
      else "." ++ dec 6 (microsecond dt))
  ++ "+00:00".

(** [dt.strftime("%Y-%m")] (years 1000 to 9999). *)
Definition strftime_Y_m (dt : datetime) : string :=
  dec 4 (year dt) ++ "-" ++ dec 2 (month dt).

(** *** [uuid.uuid4()] and [str(UUID)]

    [uuid4()] is [UUID(bytes=os.urandom(16), version=4)]: the sixteen
    random bytes read as a big-endian integer, with the variant and
    version bits forced. *)
Definition uuid4 (urandom : Z) : Z :=
  let i := Z.land urandom (Z.lnot (Z.shiftl 0xc000 48)) in
  let i := Z.lor i (Z.shiftl 0x8000 48) in
  let i := Z.land i (Z.lnot (Z.shiftl 0xf000 64)) in
  Z.lor i (Z.shiftl 4 76).

Definition hexchar (d : Z) : ascii :=
  if (d <? 10)%Z then ascii_of_nat (48 + Z.to_nat d)
  else ascii_of_nat (87 + Z.to_nat d).

(** The [k] low hexadecimal digits of [n], most significant first, in
    front of [acc] ([%0kx]). *)
Fixpoint hex (k : nat) (n : Z) (acc : string) : string :=
  match k with
  | O => acc
  | S k' => hex k' (n / 16) (String (hexchar (n mod 16)) acc)
  end.

(** ['%s-%s-%s-%s-%s' % (h[:8], h[8:12], h[12:16], h[16:20], h[20:])] *)
Definition dashed (h : string) : string :=
  substring 0 8 h ++ "-" ++ substring 8 4 h ++ "-" ++ substring 12 4 h
  ++ "-" ++ substring 16 4 h ++ "-" ++ substring 20 12 h.

(** [str(u)] for a UUID with integer value [u]. *)
Definition str_uuid (u : Z) : string := dashed (hex 32 u EmptyString).

(** *** Strings

    [c.isspace()] on ASCII. *)
Definition isspace (c : ascii) : bool :=
  let n := N_of_ascii c in
  ((9 <=? n)%N && (n <=? 13)%N) || ((28 <=? n)%N && (n <=? 32)%N).

(** [s.lstrip()], [s.rstrip()] and [s.strip()] *)
Fixpoint lstrip (s : string) : string :=
  match s with
  | String c r => if isspace c then lstrip r else s
  | EmptyString => s
  end.

Fixpoint rstrip (s : string) : string :=
  match s with
  | EmptyString => EmptyString
  | String c r =>
      match rstrip r with
      | EmptyString => if isspace c then EmptyString else String c EmptyString
      | r' => String c r'
      end
  end.

Definition strip (s : string) : string := rstrip (lstrip s).

(** [s.split(sep)] for a separator of one character: every occurrence
    cuts, empty pieces are kept. *)
Fixpoint split (sep : ascii) (s : string) : list string :=
  match s with
  | EmptyString => [EmptyString]
  | String c r =>
      if Ascii.eqb c sep then EmptyString :: split sep r
      else match split sep r with
           | x :: l => String c x :: l
           | [] => [String c EmptyString]
           end
  end.

(** [sub in s] *)
Definition contains (sub s : string) : bool :=
  match String.index 0 sub s with Some _ => true | None => false end.

(** [os.getenv(name)] and [os.environ.get(name)] *)
Definition getenv (environ : list (string * string)) (name : string)
  : option string :=
  match find (fun kv => String.eqb (fst kv) name) environ with
  | Some kv => Some (snd kv)
  | None => None
  end.

(** Truthiness of an optional string: [None] and the empty string are
    falsy. *)
Definition truthy_str (v : option string) : bool :=
  match v with
  | None | Some EmptyString => false
  | Some _ => true
  end.

End Py.

Notation "x <- m ;; k" := (Py.bind m (fun x => k))
  (at level 61, m at next level, right associativity).

(* ================================================================= *)
(** ** app/models/sales.py *)

Module Models.

Inductive Platform : Type := EBAY | GOAT | STOCKX | MANUAL.

Definition Platform_value (p : Platform) : string :=
  match p with
  | EBAY => "ebay" | GOAT => "goat" | STOCKX => "stockx" | MANUAL => "manual"
  end.

(** String lengths count characters; [String.length] agrees with
    Python's [len] on ASCII text. *)
Definition len_between (lo hi : nat) (s : string) : bool :=
  Nat.leb lo (String.length s) && Nat.leb (String.length s) hi.

Definition opt_forall {A} (p : A -> bool) (o : option A) : bool :=
  match o with None => true | Some a => p a end.

Definition gt0 (q : Q) : bool := negb (Qle_bool q 0).

(** A sale document as a Python dict: what [model_dump()] produces,
    what the container stores and what [SaleItem], applied to the dict,
    consumes.  The keys are those of [SaleItem]; [None] is JSON [null].  [id], [userId] and
    the two timestamps are always strings in the documents this service
    writes; the five data fields can be overwritten with [null] by an
    update (see [SaleUpdate]). *)
Module SaleDict.
Record t : Type := mk {
  id : string;
  userId : string;
  productName : option string;
  amount : option Q;
  saleDate : option string;
  customerName : option string;
  platform : option Platform;
  createdAt : string;
  updatedAt : string
}.
End SaleDict.

Module SaleItem.
Record t : Type := mk {
  id : string;
  userId : string;
  productName : string;
  amount : Q;
  saleDate : string;
  customerName : option string;
  platform : Platform;
  createdAt : string;
  updatedAt : string
}.

(** [SaleItem] applied to the dict [d]: pydantic validates the required
    fields and the [Field] constraints and raises [ValidationError] (a
    [ValueError]) otherwise.  The message stands for pydantic's report. *)
Definition validate (d : SaleDict.t) : Py.result t :=
  match SaleDict.productName d, SaleDict.amount d, SaleDict.saleDate d,
        SaleDict.platform d with
  | Some pn, Some a, Some sd, Some pf =>
      if len_between 1 200 pn && gt0 a
         && opt_forall (len_between 0 100) (SaleDict.customerName d)
      then Py.Ok (mk (SaleDict.id d) (SaleDict.userId d) pn a sd
                     (SaleDict.customerName d) pf
                     (SaleDict.createdAt d) (SaleDict.updatedAt d))
      else Py.Raise (Py.ValueError "validation error for SaleItem")
  | _, _, _, _ => Py.Raise (Py.ValueError "validation error for SaleItem")
  end.

(** [item.model_dump()] *)
Definition model_dump (s : t) : SaleDict.t :=
  SaleDict.mk (id s) (userId s) (Some (productName s)) (Some (amount s))
              (Some (saleDate s)) (customerName s) (Some (platform s))
              (createdAt s) (updatedAt s).
End SaleItem.

Module SaleCreate.
Record t : Type := mk {
  productName : string;
  amount : Q;
  saleDate : string;
  customerName : option string;
  platform : Platform
}.
(** The [Field] constraints: what a payload must satisfy to be
    accepted as a [SaleCreate]. *)
Definition valid (c : t) : bool :=
  len_between 1 200 (productName c) && gt0 (amount c)
  && opt_forall (len_between 0 100) (customerName c).
End SaleCreate.

(** Every field of [SaleUpdate] is optional with default [None].
    [model_dump(exclude_unset=True)] keeps the fields the payload set,
    also those it set to [null]; a field is therefore
    [None] (unset), [Some None] (set to null) or [Some (Some v)]. *)
Module SaleUpdate.
Record t : Type := mk {
  productName : option (option string);
  amount : option (option Q);
  saleDate : option (option string);
  customerName : option (option string);
  platform : option (option Platform)
}.
Definition valid (u : t) : bool :=
  opt_forall (opt_forall (len_between 1 200)) (productName u)
  && opt_forall (opt_forall gt0) (amount u)
  && opt_forall (opt_forall (len_between 0 100)) (customerName u).
End SaleUpdate.

Module DashboardStats.
Record t : Type := mk {
  totalSales : Q;
  totalItems : Z;
  thisMonth : Q;
  avgPrice : Q
}.
End DashboardStats.

(** A row of the projection [SELECT c.id, c.productName, c.amount,
    c.saleDate, c.platform, c.customerName]. *)
Module RecentDict.
Record t : Type := mk {
  id : string;
  productName : option string;
  amount : option Q;
  saleDate : option string;
  platform : option Platform;
  customerName : option string
}.
End RecentDict.

Module RecentSale.
Record t : Type := mk {
  id : string;
  productName : string;
  amount : Q;
  saleDate : string;
  platform : Platform;
  customerName : option string
}.

(** [RecentSale] applied to the dict [d]: required fields must not be
    null; no further constraint. *)
Definition validate (d : RecentDict.t) : Py.result t :=
  match RecentDict.productName d, RecentDict.amount d,
        RecentDict.saleDate d, RecentDict.platform d with
  | Some pn, Some a, Some sd, Some pf =>
      Py.Ok (mk (RecentDict.id d) pn a sd pf (RecentDict.customerName d))
  | _, _, _, _ => Py.Raise (Py.ValueError "validation error for RecentSale")
  end.
End RecentSale.

End Models.

(* ================================================================= *)
(** ** The document container

    The container [sales] of database [sales-database], partitioned by
    [/userId]: a document's partition key is its [userId] field, and
    [id] is unique within a partition.  The content is the list of
    stored documents; point operations address a document by
    (partition key, id). *)

Module Cosmos.
Import Models.

Definition Container : Type := list SaleDict.t.

Definition has_key (pk item : string) (d : SaleDict.t) : bool :=
  String.eqb (SaleDict.userId d) pk && String.eqb (SaleDict.id d) item.

(** Keys are unique: the container never holds two documents with the
    same partition key and id. *)
Definition key (d : SaleDict.t) : string * string :=
  (SaleDict.userId d, SaleDict.id d).

Definition wf (c : Container) : Prop := NoDup (map key c).

(** [container.read_item(item=.., partition_key=..)] *)
Definition read_item (item pk : string) (c : Container) : Py.result SaleDict.t :=
  match find (has_key pk item) c with
  | Some d => Py.Ok d
  | None => Py.Raise (Py.CosmosResourceNotFoundError "NotFound")
  end.

(** [container.create_item(body)]: the partition key is read from the
    body; an existing (partition key, id) is a conflict. *)
Definition create_item (body : SaleDict.t) (c : Container)
  : Py.result SaleDict.t * Container :=
  if existsb (has_key (SaleDict.userId body) (SaleDict.id body)) c
  then (Py.Raise (Py.CosmosResourceExistsError "Conflict"), c)
  else (Py.Ok body, (c ++ [body])%list).

(** [container.replace_item(item=.., body=..)]: replaces, in the
    partition of the body, the document whose id is [item]. *)
Definition replace_item (item : string) (body : SaleDict.t) (c : Container)
  : Py.result SaleDict.t * Container :=
  if existsb (has_key (SaleDict.userId body) item) c
  then (Py.Ok body,
        map (fun d => if has_key (SaleDict.userId body) item d then body else d) c)
  else (Py.Raise (Py.CosmosResourceNotFoundError "NotFound"), c).

(** [container.delete_item(item=.., partition_key=..)] *)
Definition delete_item (item pk : string) (c : Container)
  : Py.result unit * Container :=
  if existsb (has_key pk item) c
  then (Py.Ok tt, filter (fun d => negb (has_key pk item d)) c)
  else (Py.Raise (Py.CosmosResourceNotFoundError "NotFound"), c).

(** The documents of every partition but [uid], in stored order. *)
Definition other_tenants (uid : string) (c : Container) : list SaleDict.t :=
  filter (fun d => negb (String.eqb (SaleDict.userId d) uid)) c.

(** *** Queries *)

(** [WHERE c.userId = @userId] *)
Definition where_userId (uid : string) (c : Container) : list SaleDict.t :=
  filter (fun d => String.eqb (SaleDict.userId d) uid) c.

(** [STARTSWITH(c.saleDate, @currentMonth)]; undefined, hence not
    selected, when [saleDate] is not a string. *)
Definition startswith_saleDate (pre : string) (d : SaleDict.t) : bool :=
  match SaleDict.saleDate d with
  | Some s => String.prefix pre s
  | None => false
  end.

(** [ORDER BY c.saleDate DESC]: strings in descending order, [null]
    after every string; ties keep the stored order. *)
Definition saleDate_geb (a b : SaleDict.t) : bool :=
  match SaleDict.saleDate a, SaleDict.saleDate b with
  | _, None => true
  | None, Some _ => false
  | Some x, Some y => String.leb y x
  end.

Fixpoint insert_desc (d : SaleDict.t) (l : list SaleDict.t) : list SaleDict.t :=
  match l with
  | [] => [d]
  | x :: l' => if saleDate_geb x d then x :: insert_desc d l' else d :: l
  end.

Definition order_by_saleDate_desc (l : list SaleDict.t) : list SaleDict.t :=
  fold_left (fun acc d => insert_desc d acc) l [].

(** The projection of [get_recent_sales]. *)
Definition select_recent (d : SaleDict.t) : RecentDict.t :=
  RecentDict.mk (SaleDict.id d) (SaleDict.productName d) (SaleDict.amount d)
                (SaleDict.saleDate d) (SaleDict.platform d)
                (SaleDict.customerName d).

(** Aggregates over [c.amount].  [SUM] and [AVG] are undefined as soon
    as one argument is [null]; [AVG] is undefined on no rows as well. *)
Fixpoint amounts (l : list SaleDict.t) : option (list Q) :=
  match l with
  | [] => Some []
  | d :: l' =>
      match SaleDict.amount d, amounts l' with
      | Some a, Some r => Some (a :: r)
      | _, _ => None
      end
  end.

Definition Qsum (l : list Q) : Q := fold_right Qplus 0%Q l.

Definition SUM (l : list SaleDict.t) : option Q :=
  option_map Qsum (amounts l).

Definition COUNT (l : list SaleDict.t) : Z := Z.of_nat (length l).

Definition AVG (l : list SaleDict.t) : option Q :=
  match amounts l with
  | Some (a :: r) => Some (Qsum (a :: r) / inject_Z (Z.of_nat (length (a :: r))))%Q
  | _ => None
  end.

(** [SELECT VALUE e]: one row holding the value, no row when the value
    is undefined. *)
Definition select_value {A} (v : option A) : list (option A) :=
  match v with Some x => [Some x] | None => [] end.

(** *** Paged results

    [query_items] returns an [ItemPaged] iterator; [max_item_count] is
    the size of a page, and [list(..)] drains every page.  For a count
    below one the service chooses the page size (one page here). *)
Definition ItemPaged (A : Type) : Type := list (list A).

Fixpoint pages {A} (fuel size : nat) (l : list A) : ItemPaged A :=
  match fuel, l with
  | S f, _ :: _ => firstn size l :: pages f size (skipn size l)
  | _, _ => []
  end.

Definition paged {A} (max_item_count : Z) (l : list A) : ItemPaged A :=
  if (max_item_count <? 1)%Z then [l]
  else pages (length l) (Z.to_nat max_item_count) l.

(** [list(iterator)] *)
Definition list_of_pages {A} (p : ItemPaged A) : list A := concat p.

(** Every stored document is one [SaleItem] accepts. *)
Definition valid_documents (c : Container) : Prop :=
  Forall (fun d => exists s, SaleItem.validate d = Py.Ok s) c.

End Cosmos.

(* ================================================================= *)
(** ** JSON values, [base64.b64decode] and [json.loads] *)

Module Json.

(** What [json.loads] returns: [None], [bool], a number, [str], [list]
    or [dict].  A dict keeps its pairs in source order; a later pair
    for the same key overrides an earlier one. *)
#[warnings="-register-all"]
Inductive json : Type :=
| JNull
| JBool (b : bool)
| JNum (q : Q)
| JStr (s : string)
| JArr (l : list json)
| JObj (l : list (string * json)).

(** Python truthiness ([bool(v)]). *)
Definition truthy (v : json) : bool :=
  match v with
  | JNull => false
  | JBool b => b
  | JNum q => negb (Qeq_bool q 0)
  | JStr s => negb (String.eqb s EmptyString)
  | JArr l => match l with [] => false | _ => true end
  | JObj l => match l with [] => false | _ => true end
  end.

(** [a or b] *)
Definition or_else (a b : json) : json := if truthy a then a else b.

Fixpoint lookup (k : string) (l : list (string * json)) : option json :=
  match l with
  | [] => None
  | (k', v) :: r =>
      match lookup k r with
      | Some v' => Some v'
      | None => if String.eqb k' k then Some v else None
      end
  end.

(** [v.get(k, default)]; only a dict has the method. *)
Definition get (v : json) (k : string) (default : json) : Py.result json :=
  match v with
  | JObj l => Py.Ok (match lookup k l with Some x => x | None => default end)
  | _ => Py.Raise (Py.AttributeError "object has no attribute 'get'")
  end.

(** *** A reference [json.loads]

    A recursive-descent reader for the grammar of RFC 8259 over the
    bytes of the input, taken as UTF-8 text.  It raises
    [JSONDecodeError] (a [ValueError]) on anything else.  Python's
    extensions ([NaN], [Infinity]) and surrogate pairs are not
    covered. *)

(** The double quote. *)
Definition dquote : ascii := ascii_of_nat 34.

Definition is_ws (c : ascii) : bool :=
  let n := N_of_ascii c in
  (n =? 32)%N || (n =? 9)%N || (n =? 10)%N || (n =? 13)%N.

Fixpoint skip_ws (s : string) : string :=
  match s with
  | String c r => if is_ws c then skip_ws r else s
  | EmptyString => s
  end.

Definition digit (c : ascii) : option Z :=
  let n := N_of_ascii c in
  if (48 <=? n)%N && (n <=? 57)%N then Some (Z.of_N (n - 48)) else None.

Definition hexdigit (c : ascii) : option N :=
  let n := N_of_ascii c in
  if (48 <=? n)%N && (n <=? 57)%N then Some (n - 48)%N
  else if (97 <=? n)%N && (n <=? 102)%N then Some (n - 87)%N
  else if (65 <=? n)%N && (n <=? 70)%N then Some (n - 55)%N
  else None.

(** UTF-8 encoding of a code point of the basic plane. *)
Definition utf8 (cp : N) : list ascii :=
  if (cp <? 128)%N then [ascii_of_N cp]
  else if (cp <? 2048)%N then
    [ascii_of_N (192 + cp / 64); ascii_of_N (128 + cp mod 64)]
  else
    [ascii_of_N (224 + cp / 4096); ascii_of_N (128 + (cp / 64) mod 64);
     ascii_of_N (128 + cp mod 64)].

(** The characters of a string literal after its opening quote. *)
Fixpoint read_string (s : string) (acc : list ascii) : option (string * string) :=
  match s with
  | EmptyString => None
  | String c r =>
      if Ascii.eqb c dquote then Some (string_of_list_ascii (rev acc), r)
      else if Ascii.eqb c "\"%char then
        match r with
        | String e r' =>
            let simple (x : N) := read_string r' (ascii_of_N x :: acc) in
            if Ascii.eqb e dquote then simple 34%N
            else if Ascii.eqb e "\"%char then simple 92%N
            else if Ascii.eqb e "/"%char then simple 47%N
            else if Ascii.eqb e "b"%char then simple 8%N
            else if Ascii.eqb e "f"%char then simple 12%N
            else if Ascii.eqb e "n"%char then simple 10%N
            else if Ascii.eqb e "r"%char then simple 13%N
            else if Ascii.eqb e "t"%char then simple 9%N
            else if Ascii.eqb e "u"%char then
              match r' with
              | String h1 (String h2 (String h3 (String h4 r''))) =>
                  match hexdigit h1, hexdigit h2, hexdigit h3, hexdigit h4 with
                  | Some a, Some b, Some c', Some d =>
                      read_string r''
                        (rev (utf8 (((a * 16 + b) * 16 + c') * 16 + d)%N) ++ acc)%list
                  | _, _, _, _ => None
                  end
              | _ => None
              end
            else None
        | EmptyString => None
        end
      else if (N_of_ascii c <? 32)%N then None
      else read_string r (c :: acc)
  end.

(** A run of decimal digits: its value, its length and the rest. *)
Fixpoint read_digits (s : string) (v : Z) (n : nat) : Z * nat * string :=
  match s with
  | String c r =>
      match digit c with
      | Some d => read_digits r (10 * v + d) (S n)
      | None => (v, n, s)
      end
  | EmptyString => (v, n, s)
  end.

(** [-? int frac? exp?] *)
Definition read_number (s : string) : option (Q * string) :=
  let (neg, s1) := match s with
                   | String "-"%char r => (true, r)
                   | _ => (false, s)
                   end in
  let '(i, ni, s2) := read_digits s1 0 0 in
  let leading_zero := match s1 with
                      | String "0"%char _ => Nat.ltb 1 ni
                      | _ => false
                      end in
  if Nat.eqb ni 0 || leading_zero then None else
  let frac := match s2 with
              | String "."%char r =>
                  let '(m, nf, s3) := read_digits r i 0 in
                  if Nat.eqb nf 0 then None else Some (m, nf, s3)
              | _ => Some (i, 0%nat, s2)
              end in
  match frac with
  | None => None
  | Some (m, nf, s3) =>
      let expo := match s3 with
                  | String c r =>
                      if Ascii.eqb c "e"%char || Ascii.eqb c "E"%char then
                        let (eneg, r1) := match r with
                                          | String "-"%char r' => (true, r')
                                          | String "+"%char r' => (false, r')
                                          | _ => (false, r)
                                          end in
                        let '(e, ne, s4) := read_digits r1 0 0 in
                        if Nat.eqb ne 0 then None
                        else Some (if eneg then (- e)%Z else e, s4)
                      else Some (0%Z, s3)
                  | EmptyString => Some (0%Z, s3)
                  end in
      match expo with
      | None => None
      | Some (e, s4) =>
          let q := (inject_Z m * Qpower (10 # 1) (e - Z.of_nat nf))%Q in
          Some (if neg then (- q)%Q else q, s4)
      end
  end.

Fixpoint read_value (fuel : nat) (s : string) : option (json * string) :=
  match fuel with
  | O => None
  | S f =>
      let elements :=
        fix elements (n : nat) (s : string) (acc : list json) :=
          match n with
          | O => None
          | S n' =>
              match read_value f s with
              | Some (v, r) =>
                  match skip_ws r with
                  | String ","%char r' => elements n' r' (v :: acc)
                  | String "]"%char r' => Some (JArr (rev (v :: acc)), r')
                  | _ => None
                  end
              | None => None
              end
          end in
      let members :=
        fix members (n : nat) (s : string) (acc : list (string * json)) :=
          match n with
          | O => None
          | S n' =>
              match skip_ws s with
              | String q r =>
                  if negb (Ascii.eqb q dquote) then None else
                  match read_string r [] with
                  | Some (k, r1) =>
                      match skip_ws r1 with
                      | String ":"%char r2 =>
                          match read_value f r2 with
                          | Some (v, r3) =>
                              match skip_ws r3 with
                              | String ","%char r' => members n' r' ((k, v) :: acc)
                              | String "}"%char r' =>
                                  Some (JObj (rev ((k, v) :: acc)), r')
                              | _ => None
                              end
                          | None => None
                          end
                      | _ => None
                      end
                  | None => None
                  end
              | _ => None
              end
          end in
      match skip_ws s with
      | String "{"%char r =>
          match skip_ws r with
          | String "}"%char r' => Some (JObj [], r')
          | _ => members (String.length r) r []
          end
      | String "["%char r =>
          match skip_ws r with
          | String "]"%char r' => Some (JArr [], r')
          | _ => elements (String.length r) r []
          end
      | String "t"%char (String "r"%char (String "u"%char (String "e"%char r))) =>
          Some (JBool true, r)
      | String "f"%char (String "a"%char (String "l"%char
          (String "s"%char (String "e"%char r)))) => Some (JBool false, r)
      | String "n"%char (String "u"%char (String "l"%char (String "l"%char r))) =>
          Some (JNull, r)
      | String c r =>
          if Ascii.eqb c dquote then
            match read_string r [] with
            | Some (x, r') => Some (JStr x, r')
            | None => None
            end
          else
            match read_number (String c r) with
            | Some (q, r') => Some (JNum q, r')
            | None => None
            end
      | EmptyString => None
      end
  end.

Definition loads (s : string) : Py.result json :=
  match read_value (S (String.length s)) s with
  | Some (v, r) =>
      match skip_ws r with
      | EmptyString => Py.Ok v
      | _ => Py.Raise (Py.ValueError "Extra data")
      end
  | None => Py.Raise (Py.ValueError "Expecting value")
  end.

End Json.

(** [binascii.a2b_base64] in its default, non-strict mode, which
    [base64.b64decode(s)] calls: characters outside the alphabet are
    skipped, a complete pad sequence ends the input, and a dangling
    quad is an error ([binascii.Error], a [ValueError]). *)
Module Base64.

Definition table_a2b (c : ascii) : option N :=
  let n := N_of_ascii c in
  if (65 <=? n)%N && (n <=? 90)%N then Some (n - 65)%N
  else if (97 <=? n)%N && (n <=? 122)%N then Some (n - 71)%N
  else if (48 <=? n)%N && (n <=? 57)%N then Some (n + 4)%N
  else if (n =? 43)%N then Some 62%N
  else if (n =? 47)%N then Some 63%N
  else None.

Definition byte (n : N) : ascii := ascii_of_N (n mod 256).

(** The decoding loop; [out] is the output so far, reversed. *)
Fixpoint a2b (s : string) (quad_pos : nat) (leftchar : N) (pads : nat)
             (out : list ascii) : Py.result string :=
  match s with
  | EmptyString =>
      match quad_pos with
      | 0%nat => Py.Ok (string_of_list_ascii (rev out))
      | 1%nat => Py.Raise (Py.ValueError "Invalid base64-encoded string")
      | _ => Py.Raise (Py.ValueError "Incorrect padding")
      end
  | String c rest =>
      if Ascii.eqb c "="%char then
        if Nat.leb 2 quad_pos && Nat.leb 4 (quad_pos + S pads)
        then Py.Ok (string_of_list_ascii (rev out))
        else a2b rest quad_pos leftchar
                 (if Nat.leb 2 quad_pos then S pads else pads) out
      else
        match table_a2b c with
        | None => a2b rest quad_pos leftchar pads out
        | Some v =>
            match quad_pos with
            | 0%nat => a2b rest 1 v 0 out
            | 1%nat => a2b rest 2 (N.land v 15) 0
                       (byte (N.lor (N.shiftl leftchar 2) (N.shiftr v 4)) :: out)
            | 2%nat => a2b rest 3 (N.land v 3) 0
                       (byte (N.lor (N.shiftl leftchar 4) (N.shiftr v 2)) :: out)
            | _ => a2b rest 0 0%N 0
                       (byte (N.lor (N.shiftl leftchar 6) v) :: out)
            end
        end
  end.

Definition b64decode (s : string) : Py.result string := a2b s 0 0%N 0 [].

End Base64.

(* ================================================================= *)
(** ** app/auth/swa_auth.py *)

Module SwaAuth.
Import Json.

(** A request, as far as the module reads it: its headers, names in
    lower case. *)
Definition Request : Type := list (string * string).

(** [request.headers.get(name)] *)
Definition headers_get (name : string) (request : Request) : option string :=
  match find (fun h => String.eqb (fst h) name) request with
  | Some h => Some (snd h)
  | None => None
  end.

(** The dict [get_current_user] returns. *)
Record User : Type := mkUser {
  userId : json;
  userDetails : json;
  provider : json;
  claims : json
}.

Section Decoders.

(** [base64.b64decode] and [json.loads]; [Base64.b64decode] and
    [Json.loads] are the instances used on concrete headers. *)
Variable b64decode : string -> Py.result string.
Variable json_loads : string -> Py.result json.

Definition get_current_user (request : Request) : Py.result User :=
  let client_principal_header := headers_get "x-ms-client-principal" request in
  match client_principal_header with
  | None | Some EmptyString =>
      Py.Raise (Py.HTTPException 401
                  "Authentication required. No client principal found.")
  | Some header =>
      Py.try_except
        (decoded_bytes <- b64decode header ;;
         client_principal <- json_loads decoded_bytes ;;
         user_id <- get client_principal "userId" JNull ;;
         user_details <- get client_principal "userDetails" JNull ;;
         provider <- get client_principal "identityProvider" JNull ;;
         if negb (truthy user_id) then
           Py.Raise (Py.HTTPException 401
                       "Invalid authentication. User ID not found.")
         else
           claims <- get client_principal "claims" (JArr []) ;;
           Py.Ok {| userId := user_id;
                    userDetails := or_else user_details (JStr "Unknown User");
                    provider := or_else provider (JStr "unknown");
                    claims := claims |})
        Py.is_ValueError
        (fun e => Py.Raise (Py.HTTPException 401
                              ("Invalid authentication data: " ++ Py.str e)))
  end.

Definition get_user_id (request : Request) : Py.result json :=
  user <- get_current_user request ;;
  Py.Ok (userId user).

Definition get_user_claims (request : Request) : Py.result json :=
  user <- get_current_user request ;;
  Py.Ok (claims user).

Definition is_authenticated (request : Request) : Py.result bool :=
  Py.try_except
    (_ <- get_current_user request ;; Py.Ok true)
    Py.is_HTTPException
    (fun _ => Py.Ok false).

End Decoders.

End SwaAuth.

(* ================================================================= *)
(** ** app/services/cosmos_service.py *)

Module CosmosService.
Import Models.

(** The service object: whether [self.client] is set, and the content
    of the container the client reaches.  Without a client no method
    touches the container. *)
Record t : Type := mk {
  client : bool;
  container : Cosmos.Container
}.

Definition with_container (self : t) (c : Cosmos.Container) : t :=
  mk (client self) c.

Definition not_initialized : Py.exn :=
  Py.RuntimeError
    "Cosmos DB client not initialized. Please check your connection string.".

(** [container.query_items(.., max_item_count=..)] over the rows a
    query selects, then [list(..)]. *)
Definition list_query_items {A} (rows : list A) (max_item_count : option Z)
  : list A :=
  Cosmos.list_of_pages
    (match max_item_count with
     | Some n => Cosmos.paged n rows
     | None => [rows]
     end).

(** The [SaleItem(id=.., userId=.., .., createdAt=now, updatedAt=now)]
    both branches of [create_sale] build. *)
Definition new_sale_item (sale_id user_id : string) (sale_data : SaleCreate.t)
                         (now : string) : Py.result SaleItem.t :=
  SaleItem.validate
    (SaleDict.mk sale_id user_id
       (Some (SaleCreate.productName sale_data))
       (Some (SaleCreate.amount sale_data))
       (Some (SaleCreate.saleDate sale_data))
       (SaleCreate.customerName sale_data)
       (Some (SaleCreate.platform sale_data))
       now now).

Definition create_sale (self : t) (now : Py.datetime) (urandom : Z)
                       (user_id : string) (sale_data : SaleCreate.t)
  : Py.result SaleItem.t * t :=
  if negb (client self) then
    let now := Py.isoformat now in
    let sale_id := Py.str_uuid (Py.uuid4 urandom) in
    (new_sale_item sale_id user_id sale_data now, self)
  else
    let now := Py.isoformat now in
    let sale_id := Py.str_uuid (Py.uuid4 urandom) in
    match new_sale_item sale_id user_id sale_data now with
    | Py.Raise e => (Py.Raise e, self)
    | Py.Ok sale_item =>
        let sale_dict := SaleItem.model_dump sale_item in
        let (created_item, c) := Cosmos.create_item sale_dict (container self) in
        (Py.try_except2
           (created_item <- created_item ;; SaleItem.validate created_item)
           Py.is_CosmosResourceExistsError
           (fun _ => Py.Raise (Py.ValueError "Sale with this ID already exists"))
           Py.is_Exception
           (fun e => Py.Raise (Py.RuntimeError
                                 ("Failed to create sale: " ++ Py.str e))),
         with_container self c)
    end.

Definition get_sale (self : t) (user_id sale_id : string)
  : Py.result (option SaleItem.t) :=
  if negb (client self) then Py.Raise not_initialized
  else
    Py.try_except2
      (item <- Cosmos.read_item sale_id user_id (container self) ;;
       sale <- SaleItem.validate item ;;
       Py.Ok (Some sale))
      Py.is_CosmosResourceNotFoundError
      (fun _ => Py.Ok None)
      Py.is_Exception
      (fun e => Py.Raise (Py.RuntimeError ("Failed to get sale: " ++ Py.str e))).

Definition get_sales_by_user (self : t) (user_id : string) (limit : Z)
  : Py.result (list SaleItem.t) :=
  if negb (client self) then Py.Ok []
  else
    let items :=
      list_query_items
        (Cosmos.order_by_saleDate_desc
           (Cosmos.where_userId user_id (container self)))
        (Some limit) in
    Py.try_except
      (Py.comprehension SaleItem.validate items)
      Py.is_Exception
      (fun e => Py.Raise (Py.RuntimeError ("Failed to get sales: " ++ Py.str e))).

(** One key of [updated_data.update(update_dict)]: a key the update
    set replaces the stored value, also with [null]. *)
Definition merge {A} (existing : option A) (update : option (option A))
  : option A :=
  match update with
  | Some v => v
  | None => existing
  end.

(** [updated_data = existing_item.model_dump()] followed by
    [updated_data.update(update_dict)], where [update_dict] is
    [update_data.model_dump(exclude_unset=True)] with [updatedAt] added. *)
Definition updated_data (existing_item : SaleItem.t) (update_data : SaleUpdate.t)
                        (updatedAt : string) : SaleDict.t :=
  let d := SaleItem.model_dump existing_item in
  SaleDict.mk (SaleDict.id d) (SaleDict.userId d)
    (merge (SaleDict.productName d) (SaleUpdate.productName update_data))
    (merge (SaleDict.amount d) (SaleUpdate.amount update_data))
    (merge (SaleDict.saleDate d) (SaleUpdate.saleDate update_data))
    (merge (SaleDict.customerName d) (SaleUpdate.customerName update_data))
    (merge (SaleDict.platform d) (SaleUpdate.platform update_data))
    (SaleDict.createdAt d) updatedAt.

Definition update_sale (self : t) (now : Py.datetime) (user_id sale_id : string)
                       (update_data : SaleUpdate.t)
  : Py.result (option SaleItem.t) * t :=
  if negb (client self) then (Py.Raise not_initialized, self)
  else
    let handlers (m : Py.result (option SaleItem.t)) :=
      Py.try_except2 m
        Py.is_CosmosResourceNotFoundError
        (fun _ => Py.Ok None)
        Py.is_Exception
        (fun e => Py.Raise (Py.RuntimeError
                              ("Failed to update sale: " ++ Py.str e))) in
    match get_sale self user_id sale_id with
    | Py.Raise e => (handlers (Py.Raise e), self)
    | Py.Ok None => (Py.Ok None, self)
    | Py.Ok (Some existing_item) =>
        let body := updated_data existing_item update_data (Py.isoformat now) in
        let (updated_item, c) :=
          Cosmos.replace_item sale_id body (container self) in
        (handlers (updated_item <- updated_item ;;
                   sale <- SaleItem.validate updated_item ;;
                   Py.Ok (Some sale)),
         with_container self c)
    end.

Definition delete_sale (self : t) (user_id sale_id : string)
  : Py.result bool * t :=
  if negb (client self) then (Py.Raise not_initialized, self)
  else
    let (deleted, c) := Cosmos.delete_item sale_id user_id (container self) in
    (Py.try_except2
       (_ <- deleted ;; Py.Ok true)
       Py.is_CosmosResourceNotFoundError
       (fun _ => Py.Ok false)
       Py.is_Exception
       (fun e => Py.Raise (Py.RuntimeError
                             ("Failed to delete sale: " ++ Py.str e))),
     with_container self c).

(** [r[0] if r and len(r) > 0 and r[0] is not None else 0] *)
Definition first_or_zero {A} (zero : A) (r : list (option A)) : A :=
  match r with
  | [] => zero
  | x :: _ =>
      if Nat.ltb 0 (length r)
      then match x with Some v => v | None => zero end
      else zero
  end.

Definition get_dashboard_stats (self : t) (now : Py.datetime) (user_id : string)
  : Py.result DashboardStats.t :=
  if negb (client self) then Py.Ok (DashboardStats.mk 0 0 0 0)
  else
    let current_month := Py.strftime_Y_m now in
    let rows := Cosmos.where_userId user_id (container self) in
    let total_sales_result :=
      list_query_items (Cosmos.select_value (Cosmos.SUM rows)) None in
    let total_items_result :=
      list_query_items (Cosmos.select_value (Some (Cosmos.COUNT rows))) None in
    let avg_price_result :=
      list_query_items (Cosmos.select_value (Cosmos.AVG rows)) None in
    let this_month_result :=
      list_query_items
        (Cosmos.select_value
           (Cosmos.SUM (filter (Cosmos.startswith_saleDate current_month) rows)))
        None in
    let total_sales := first_or_zero 0%Q total_sales_result in
    let total_items := first_or_zero 0%Z total_items_result in
    let avg_price := first_or_zero 0%Q avg_price_result in
    let this_month_sales := first_or_zero 0%Q this_month_result in
    Py.try_except
      (Py.Ok (DashboardStats.mk total_sales total_items this_month_sales
                                avg_price))
      Py.is_Exception
      (fun e => Py.Raise (Py.RuntimeError
                            ("Failed to get dashboard stats: " ++ Py.str e))).

Definition get_recent_sales (self : t) (user_id : string) (limit : Z)
  : Py.result (list RecentSale.t) :=
  if negb (client self) then Py.Ok []
  else
    let items :=
      list_query_items
        (map Cosmos.select_recent
           (Cosmos.order_by_saleDate_desc
              (Cosmos.where_userId user_id (container self))))
        (Some limit) in
    Py.try_except
      (Py.comprehension RecentSale.validate items)
      Py.is_Exception
      (fun e => Py.Raise (Py.RuntimeError
                            ("Failed to get recent sales: " ++ Py.str e))).

(** *** [CosmosService.__init__]

    The constructor reads the environment.  The credential and the two
    client constructors belong to the Azure SDK: what they return or
    raise is a parameter.  [remote] is the content of the container
    [sales] of database [sales-database]. *)
Section Init.

Variable DefaultAzureCredential : Py.result unit.
Variable CosmosClient : string -> Py.result unit.
Variable from_connection_string : string -> Py.result unit.

Definition init (environ : list (string * string)) (remote : Cosmos.Container)
  : Py.result t :=
  if Py.truthy_str (Py.getenv environ "AZURE_CLIENT_ID") then
    _ <- DefaultAzureCredential ;;
    let cosmos_endpoint := Py.getenv environ "COSMOSDB_ENDPOINT" in
    if negb (Py.truthy_str cosmos_endpoint) then
      Py.Raise (Py.ValueError
        "COSMOSDB_ENDPOINT environment variable is required for production")
    else
      _ <- CosmosClient (match cosmos_endpoint with
                         | Some url => url
                         | None => EmptyString
                         end) ;;
      Py.Ok (mk true remote)
  else
    let connection_string := Py.getenv environ "COSMOSDB_CONNECTION_STRING" in
    if negb (Py.truthy_str connection_string) then
      Py.Raise (Py.ValueError
        "COSMOSDB_CONNECTION_STRING environment variable is required for local development")
    else
      let connection_string :=
        match connection_string with Some x => x | None => EmptyString end in
      if Py.contains "your-cosmosdb-account" connection_string
         || Py.contains "your-primary-key" connection_string
      then Py.Ok (mk false remote)
      else
        match from_connection_string connection_string with
        | Py.Ok _ => Py.Ok (mk true remote)
        | Py.Raise _ => Py.Ok (mk false remote)
        end.

End Init.

End CosmosService.

(* ================================================================= *)
(** ** app/api/sales.py

    Each handler receives the [user_id] that the dependency
    [get_user_id] resolved from the request. *)

Module SalesApi.
Import Models.

Definition get_sales (svc : CosmosService.t) (user_id : string)
  : Py.result (list SaleItem.t) :=
  Py.try_except
    (CosmosService.get_sales_by_user svc user_id 100)
    Py.is_Exception
    (fun e => Py.Raise (Py.HTTPException 500
                          ("Failed to retrieve sales: " ++ Py.str e))).

Definition create_sale (svc : CosmosService.t) (now : Py.datetime) (urandom : Z)
                       (sale_data : SaleCreate.t) (user_id : string)
  : Py.result SaleItem.t * CosmosService.t :=
  let (sale, svc') := CosmosService.create_sale svc now urandom user_id sale_data in
  (Py.try_except2 sale
     Py.is_ValueError
     (fun e => Py.Raise (Py.HTTPException 400 (Py.str e)))
     Py.is_Exception
     (fun e => Py.Raise (Py.HTTPException 500
                           ("Failed to create sale: " ++ Py.str e))),
   svc').

Definition not_found {A} : Py.result A :=
  Py.Raise (Py.HTTPException 404 "Sale not found").

Definition get_sale (svc : CosmosService.t) (sale_id user_id : string)
  : Py.result SaleItem.t :=
  sale <- CosmosService.get_sale svc user_id sale_id ;;
  match sale with
  | None => not_found
  | Some sale => Py.Ok sale
  end.

Definition update_sale (svc : CosmosService.t) (now : Py.datetime)
                       (sale_id : string) (update_data : SaleUpdate.t)
                       (user_id : string)
  : Py.result SaleItem.t * CosmosService.t :=
  let (sale, svc') :=
    CosmosService.update_sale svc now user_id sale_id update_data in
  (sale <- sale ;;
   match sale with
   | None => not_found
   | Some sale => Py.Ok sale
   end,
   svc').

Definition delete_sale (svc : CosmosService.t) (sale_id user_id : string)
  : Py.result unit * CosmosService.t :=
  let (success, svc') := CosmosService.delete_sale svc user_id sale_id in
  (success <- success ;;
   if negb success then not_found else Py.Ok tt,
   svc').

End SalesApi.

(* ================================================================= *)
(** ** app/api/dashboard.py *)

Module DashboardApi.
Import Models.

Definition get_dashboard_stats (svc : CosmosService.t) (now : Py.datetime)
                               (user_id : string)
  : Py.result DashboardStats.t :=
  Py.try_except
    (CosmosService.get_dashboard_stats svc now user_id)
    Py.is_Exception
    (fun e => Py.Raise (Py.HTTPException 500
                          ("Failed to retrieve dashboard stats: " ++ Py.str e))).

Definition get_recent_sales (svc : CosmosService.t) (limit : Z)
                            (user_id : string)
  : Py.result (list RecentSale.t) :=
  let limit := Py.min limit 20 in
  Py.try_except
    (CosmosService.get_recent_sales svc user_id limit)
    Py.is_Exception
    (fun e => Py.Raise (Py.HTTPException 500
                          ("Failed to retrieve recent sales: " ++ Py.str e))).

Record DashboardData : Type := mkDashboardData {
  stats : DashboardStats.t;
  recentSales : list RecentSale.t
}.

Definition get_dashboard_data (svc : CosmosService.t) (now : Py.datetime)
                              (user_id : string)
  : Py.result DashboardData :=
  Py.try_except
    (stats <- CosmosService.get_dashboard_stats svc now user_id ;;
     recent_sales <- CosmosService.get_recent_sales svc user_id 5 ;;
     Py.Ok {| stats := stats; recentSales := recent_sales |})
    Py.is_Exception
    (fun e => Py.Raise (Py.HTTPException 500
                          ("Failed to retrieve dashboard data: " ++ Py.str e))).

End DashboardApi.

(* ================================================================= *)
(** ** app/main.py: the exception handlers *)

Module Main.

(** [JSONResponse(status_code=.., content={"detail": .., "status_code": ..})] *)
Record JSONResponse : Type := mkJSONResponse {
  status_code : nat;
  detail : string;
  content_status_code : nat
}.

Definition http_exception_handler (status : nat) (detail : string) : JSONResponse :=
  mkJSONResponse status detail status.

Definition general_exception_handler (exc : Py.exn) : JSONResponse :=
  mkJSONResponse 500 "Internal server error" 500.

(** The handler the application selects for an exception that leaves a
    route or one of its dependencies. *)
Definition exception_handler (exc : Py.exn) : JSONResponse :=
  match exc with
  | Py.HTTPException status detail => http_exception_handler status detail
  | _ => general_exception_handler exc
  end.

(** The status of the response of a route declared with
    [status_code=success]. *)
Definition response_status {A} (success : nat) (r : Py.result A) : nat :=
  match r with
  | Py.Ok _ => success
  | Py.Raise exc => status_code (exception_handler exc)
  end.

(** *** Routing

    The routes of the two routers, each with the arguments its handler
    takes besides the resolved [user_id]; the clock and the entropy a
    request reads are part of it. *)
Inductive Route : Type :=
| GET_sales
| POST_sales (now : Py.datetime) (urandom : Z) (sale_data : Models.SaleCreate.t)
| GET_sale (sale_id : string)
| PUT_sale (now : Py.datetime) (sale_id : string)
           (update_data : Models.SaleUpdate.t)
| DELETE_sale (sale_id : string)
| GET_dashboard_stats (now : Py.datetime)
| GET_dashboard_recent (limit : Z)
| GET_dashboard (now : Py.datetime).

Inductive Body : Type :=
| Sales (l : list Models.SaleItem.t)
| Sale (s : Models.SaleItem.t)
| NoContent
| Stats (s : Models.DashboardStats.t)
| RecentSales (l : list Models.RecentSale.t)
| Dashboard (d : DashboardApi.DashboardData).

Definition returning {A} (f : A -> Body) (r : Py.result A) : Py.result Body :=
  x <- r ;; Py.Ok (f x).

Definition route (r : Route) (user_id : string) (svc : CosmosService.t)
  : Py.result Body * CosmosService.t :=
  match r with
  | GET_sales => (returning Sales (SalesApi.get_sales svc user_id), svc)
  | POST_sales now urandom sale_data =>
      let (x, svc') := SalesApi.create_sale svc now urandom sale_data user_id in
      (returning Sale x, svc')
  | GET_sale sale_id =>
      (returning Sale (SalesApi.get_sale svc sale_id user_id), svc)
  | PUT_sale now sale_id update_data =>
      let (x, svc') := SalesApi.update_sale svc now sale_id update_data user_id in
      (returning Sale x, svc')
  | DELETE_sale sale_id =>
      let (x, svc') := SalesApi.delete_sale svc sale_id user_id in
      (returning (fun _ => NoContent) x, svc')
  | GET_dashboard_stats now =>
      (returning Stats (DashboardApi.get_dashboard_stats svc now user_id), svc)
  | GET_dashboard_recent limit =>
      (returning RecentSales (DashboardApi.get_recent_sales svc limit user_id),
       svc)
  | GET_dashboard now =>
      (returning Dashboard (DashboardApi.get_dashboard_data svc now user_id),
       svc)
  end.

(** The status a route is declared with. *)
Definition success_status (r : Route) : nat :=
  match r with
  | POST_sales _ _ _ => 201
  | DELETE_sale _ => 204
  | _ => 200
  end.

(** The sales a response body carries. *)
Definition sales_of (b : Body) : list Models.SaleItem.t :=
  match b with
  | Sales l => l
  | Sale s => [s]
  | _ => []
  end.

(** The recent-sale rows a response body carries. *)
Definition recent_of (b : Body) : list Models.RecentSale.t :=
  match b with
  | RecentSales l => l
  | Dashboard d => DashboardApi.recentSales d
  | _ => []
  end.

(** *** CORS and the open routes *)

(** [allow_origins]: the comma-separated [ALLOWED_ORIGINS], each origin
    stripped, or the wildcard when the variable is unset or empty. *)
Definition allow_origins (environ : list (string * string)) : list string :=
  let allowed_origins_env := Py.getenv environ "ALLOWED_ORIGINS" in
  if Py.truthy_str allowed_origins_env then
    map Py.strip
        (Py.split ","%char
           (match allowed_origins_env with Some x => x | None => EmptyString end))
  else ["*"].

(** The dict [get_user_info] returns for [/api/user]. *)
Record UserInfo : Type := mkUserInfo {
  info_userId : Json.json;
  info_userDetails : Json.json;
  info_provider : Json.json
}.

Definition get_user_info (user : SwaAuth.User) : UserInfo :=
  mkUserInfo (SwaAuth.userId user) (SwaAuth.userDetails user)
             (SwaAuth.provider user).

End Main.

(* ================================================================= *)
(** ** Sample data *)

Module Sample.
Import Models.

Definition now : Py.datetime := Py.mkdatetime 2024 3 1 12 0 5 0.

Definition widget : SaleCreate.t :=
  SaleCreate.mk "Widget" 10 "2024-03-01T00:00:00Z" None MANUAL.

(** The document of a sale of [widget] made by [user_id], for the
    entropy [urandom]. *)
Definition widget_doc (user_id : string) (urandom : Z) : SaleDict.t :=
  SaleDict.mk (Py.str_uuid (Py.uuid4 urandom)) user_id (Some "Widget") (Some 10%Q)
    (Some "2024-03-01T00:00:00Z") None (Some MANUAL)
    (Py.isoformat now) (Py.isoformat now).

Definition sale_u1 : SaleDict.t := Eval vm_compute in widget_doc "u1" 7.
Definition sale_u2 : SaleDict.t := Eval vm_compute in widget_doc "u2" 8.

(** A service with a client, holding one sale of each of two tenants. *)
Definition online : CosmosService.t := CosmosService.mk true [sale_u1; sale_u2].

(** A service without a client. *)
Definition offline : CosmosService.t := CosmosService.mk false [].

(** A later reading of the clock, and an update that sets the amount
    and nothing else. *)
Definition later : Py.datetime := Py.mkdatetime 2024 3 2 9 30 0 500.

Definition reprice : SaleUpdate.t :=
  SaleUpdate.mk None (Some (Some 12%Q)) None None None.

(** A tenant with twenty-one sales. *)
Definition crowded : CosmosService.t :=
  CosmosService.mk true
    (map (fun n => widget_doc "u1" (Z.of_nat n)) (seq 0 21)).

End Sample.

(* ================================================================= *)
(** * Properties *)

Import Models.

(** A goal whose hypothesis says that a raised exception, passed
    through [except] clauses that raise again, came out as a value. *)
Ltac raised :=
  simpl;
  repeat match goal with
         | |- context [if ?b then _ else _] => destruct b
         end;
  discriminate.

(** ** Lists, pages and comprehensions *)

Section ListFacts.

Context {A B : Type}.

Lemma pages_concat (size fuel : nat) (l : list A) :
  (1 <= size)%nat -> (length l <= fuel)%nat ->
  concat (Cosmos.pages fuel size l) = l.
Proof.
  intros Hsize. revert l.
  induction fuel as [|fuel IH]; intros l Hlen.
  - destruct l; [reflexivity | simpl in Hlen; lia].
  - destruct l as [|x l]; [reflexivity|].
    cbn [Cosmos.pages concat].
    rewrite IH.
    + apply firstn_skipn.
    + rewrite length_skipn. destruct size as [|size]; [lia|].
      cbn [length] in *. lia.
Qed.

Lemma list_of_pages_paged (n : Z) (l : list A) :
  Cosmos.list_of_pages (Cosmos.paged n l) = l.
Proof.
  unfold Cosmos.list_of_pages, Cosmos.paged.
  destruct (n <? 1)%Z eqn:E.
  - simpl. apply app_nil_r.
  - apply pages_concat; [|reflexivity].
    apply Z.ltb_ge in E. lia.
Qed.

(** Draining the iterator yields every selected row, whatever
    [max_item_count] is. *)
Lemma list_query_items_all (rows : list A) (max_item_count : option Z) :
  CosmosService.list_query_items rows max_item_count = rows.
Proof.
  unfold CosmosService.list_query_items.
  destruct max_item_count as [n|].
  - apply list_of_pages_paged.
  - unfold Cosmos.list_of_pages. simpl. apply app_nil_r.
Qed.

Lemma comprehension_Forall2 (f : A -> Py.result B) (l : list A) (r : list B) :
  Py.comprehension f l = Py.Ok r -> Forall2 (fun x y => f x = Py.Ok y) l r.
Proof.
  revert r. induction l as [|x l IH]; intros r H; simpl in H.
  - injection H as <-. constructor.
  - destruct (f x) as [y|e] eqn:Hx; [|discriminate].
    destruct (Py.comprehension f l) as [r'|e]; [|discriminate].
    injection H as <-. constructor; auto.
Qed.

Lemma comprehension_total (f : A -> Py.result B) (g : A -> B) (l : list A) :
  (forall x, In x l -> f x = Py.Ok (g x)) ->
  Py.comprehension f l = Py.Ok (map g l).
Proof.
  induction l as [|x l IH]; intros H; simpl; [reflexivity|].
  rewrite (H x (or_introl eq_refl)), IH; [reflexivity|].
  intros y Hy. apply H. now right.
Qed.

Lemma Forall2_In_right (P : A -> B -> Prop) (l : list A) (r : list B) (y : B) :
  Forall2 P l r -> In y r -> exists x, In x l /\ P x y.
Proof.
  induction 1 as [|x y' l r Hxy _ IH]; intros Hin; [contradiction|].
  destruct Hin as [<-|Hin].
  - exists x. split; [now left | assumption].
  - destruct (IH Hin) as (x' & Hx' & HP). exists x'. split; [now right | assumption].
Qed.

Lemma try_except_Ok (m : Py.result A) (cls : Py.exn -> bool)
      (h : Py.exn -> Py.exn) (a : A) :
  Py.try_except m cls (fun e => Py.Raise (h e)) = Py.Ok a -> m = Py.Ok a.
Proof.
  destruct m as [a'|e]; simpl; [auto|]. destruct (cls e); discriminate.
Qed.

End ListFacts.

(** ** The container *)

Section ContainerFacts.
Import Models.

Lemma has_key_true (pk item : string) (d : SaleDict.t) :
  Cosmos.has_key pk item d = true <->
  SaleDict.userId d = pk /\ SaleDict.id d = item.
Proof.
  unfold Cosmos.has_key.
  rewrite andb_true_iff, !String.eqb_eq. tauto.
Qed.

Lemma where_userId_In (uid : string) (c : Cosmos.Container) (d : SaleDict.t) :
  In d (Cosmos.where_userId uid c) <-> In d c /\ SaleDict.userId d = uid.
Proof.
  unfold Cosmos.where_userId. now rewrite filter_In, String.eqb_eq.
Qed.

Lemma insert_desc_perm (d : SaleDict.t) (l : list SaleDict.t) :
  Permutation (Cosmos.insert_desc d l) (d :: l).
Proof.
  induction l as [|x l IH]; simpl; [reflexivity|].
  destruct (Cosmos.saleDate_geb x d); [|reflexivity].
  rewrite IH. apply perm_swap.
Qed.

Lemma order_by_saleDate_desc_perm (l : list SaleDict.t) :
  Permutation (Cosmos.order_by_saleDate_desc l) l.
Proof.
  unfold Cosmos.order_by_saleDate_desc.
  assert (G : forall acc, Permutation
              (fold_left (fun acc d => Cosmos.insert_desc d acc) l acc)
              (l ++ acc)%list).
  { induction l as [|x l IH]; intros acc; simpl; [reflexivity|].
    rewrite IH, insert_desc_perm. symmetry. apply Permutation_middle. }
  rewrite G. now rewrite app_nil_r.
Qed.

Lemma read_item_Ok (item pk : string) (c : Cosmos.Container) (d : SaleDict.t) :
  Cosmos.read_item item pk c = Py.Ok d ->
  In d c /\ SaleDict.userId d = pk /\ SaleDict.id d = item.
Proof.
  unfold Cosmos.read_item.
  destruct (find (Cosmos.has_key pk item) c) as [d'|] eqn:F; [|discriminate].
  intros [= <-]. apply find_some in F as [Hin Hk].
  apply has_key_true in Hk. tauto.
Qed.

Lemma existsb_has_key_false (item pk : string) (c : Cosmos.Container) :
  (forall d, In d c -> SaleDict.id d = item -> SaleDict.userId d <> pk) ->
  existsb (Cosmos.has_key pk item) c = false.
Proof.
  intros H. destruct (existsb _ c) eqn:E; [|reflexivity].
  apply existsb_exists in E as (d & Hin & Hk).
  apply has_key_true in Hk as [Hu Hi]. now elim (H d Hin Hi).
Qed.

Lemma find_has_key_none (item pk : string) (c : Cosmos.Container) :
  existsb (Cosmos.has_key pk item) c = false ->
  find (Cosmos.has_key pk item) c = None.
Proof.
  intros E. destruct (find _ c) as [d|] eqn:F; [|reflexivity].
  apply find_some in F as [Hin Hk].
  assert (existsb (Cosmos.has_key pk item) c = true)
    by (apply existsb_exists; eauto).
  congruence.
Qed.

(** [SaleItem] accepts a document exactly when it has the shape
    [model_dump] produces and meets the field constraints. *)
Lemma validate_inv (d : SaleDict.t) (s : SaleItem.t) :
  SaleItem.validate d = Py.Ok s ->
  SaleItem.model_dump s = d /\
  len_between 1 200 (SaleItem.productName s) = true /\
  gt0 (SaleItem.amount s) = true /\
  opt_forall (len_between 0 100) (SaleItem.customerName s) = true.
Proof.
  unfold SaleItem.validate. destruct d as [i u pn a sd cn pf ca ua]; simpl.
  destruct pn as [pn|], a as [a|], sd as [sd|], pf as [pf|]; try discriminate.
  destruct (len_between 1 200 pn && gt0 a && opt_forall (len_between 0 100) cn)
    eqn:E; [|discriminate].
  intros [= <-]. simpl.
  apply andb_true_iff in E as [E E3]. apply andb_true_iff in E as [E1 E2].
  auto.
Qed.

Lemma validate_userId (d : SaleDict.t) (s : SaleItem.t) :
  SaleItem.validate d = Py.Ok s ->
  SaleItem.userId s = SaleDict.userId d /\ SaleItem.id s = SaleDict.id d.
Proof.
  intros H. apply validate_inv in H as [<- _]. now destruct s.
Qed.

End ContainerFacts.

(** ** The service *)

Section ServiceFacts.
Import Models.

Variable svc : CosmosService.t.
Let c := CosmosService.container svc.

Lemma with_container_same : CosmosService.with_container svc c = svc.
Proof. subst c. now destruct svc. Qed.

Lemma get_sale_found (u i : string) (d : SaleDict.t) (s : SaleItem.t) :
  CosmosService.client svc = true ->
  Cosmos.read_item i u c = Py.Ok d ->
  SaleItem.validate d = Py.Ok s ->
  CosmosService.get_sale svc u i = Py.Ok (Some s).
Proof.
  intros Hc Hr Hv. unfold CosmosService.get_sale. rewrite Hc. simpl.
  fold c. rewrite Hr. simpl. now rewrite Hv.
Qed.

Lemma get_sale_absent (u i : string) :
  CosmosService.client svc = true ->
  existsb (Cosmos.has_key u i) c = false ->
  CosmosService.get_sale svc u i = Py.Ok None.
Proof.
  intros Hc He. unfold CosmosService.get_sale. rewrite Hc. simpl.
  fold c. unfold Cosmos.read_item. now rewrite (find_has_key_none _ _ _ He).
Qed.

Lemma get_sale_Some_inv (u i : string) (s : SaleItem.t) :
  CosmosService.get_sale svc u i = Py.Ok (Some s) ->
  CosmosService.client svc = true /\
  exists d, Cosmos.read_item i u c = Py.Ok d /\ SaleItem.validate d = Py.Ok s.
Proof.
  unfold CosmosService.get_sale.
  destruct (CosmosService.client svc); simpl; [|discriminate].
  fold c. destruct (Cosmos.read_item i u c) as [d|e] eqn:Hr; simpl.
  - destruct (SaleItem.validate d) as [s'|e] eqn:Hv; simpl;
      [|destruct (Py.is_CosmosResourceNotFoundError e); discriminate].
    intros [= <-]. eauto.
  - destruct (Py.is_CosmosResourceNotFoundError e); discriminate.
Qed.

Lemma get_sales_by_user_inv (u : string) (limit : Z) (l : list SaleItem.t)
      (s : SaleItem.t) :
  CosmosService.get_sales_by_user svc u limit = Py.Ok l -> In s l ->
  exists d, In d c /\ SaleDict.userId d = u /\ SaleItem.validate d = Py.Ok s.
Proof.
  unfold CosmosService.get_sales_by_user.
  destruct (CosmosService.client svc); simpl.
  - intros H Hin. apply try_except_Ok in H.
    rewrite list_query_items_all in H.
    apply comprehension_Forall2 in H.
    destruct (Forall2_In_right _ _ _ _ H Hin) as (d & Hd & Hv).
    exists d. split; [|split]; auto;
      apply (Permutation_in _ (order_by_saleDate_desc_perm _)) in Hd;
      now apply where_userId_In in Hd.
  - intros [= <-] [].
Qed.

Lemma get_recent_sales_inv (u : string) (limit : Z) (l : list RecentSale.t)
      (q : RecentSale.t) :
  CosmosService.get_recent_sales svc u limit = Py.Ok l -> In q l ->
  exists d, In d c /\ SaleDict.userId d = u /\
            RecentSale.validate (Cosmos.select_recent d) = Py.Ok q.
Proof.
  unfold CosmosService.get_recent_sales.
  destruct (CosmosService.client svc); simpl.
  - intros H Hin. apply try_except_Ok in H.
    rewrite list_query_items_all in H.
    apply comprehension_Forall2 in H.
    destruct (Forall2_In_right _ _ _ _ H Hin) as (r & Hr & Hv).
    apply in_map_iff in Hr as (d & <- & Hd).
    exists d. split; [|split]; auto;
      apply (Permutation_in _ (order_by_saleDate_desc_perm _)) in Hd;
      now apply where_userId_In in Hd.
  - intros [= <-] [].
Qed.

End ServiceFacts.

(** ** Writes stay inside the caller's partition *)

Section Partitions.
Import Models.

Lemma other_tenants_create (u : string) (body : SaleDict.t) (c : Cosmos.Container) :
  SaleDict.userId body = u ->
  Cosmos.other_tenants u (snd (Cosmos.create_item body c)) =
  Cosmos.other_tenants u c.
Proof.
  intros Hu. unfold Cosmos.create_item.
  destruct (existsb _ c); simpl; [reflexivity|].
  unfold Cosmos.other_tenants. rewrite filter_app. simpl.
  rewrite Hu, String.eqb_refl. simpl. apply app_nil_r.
Qed.

Lemma other_tenants_replace (u i : string) (body : SaleDict.t)
      (c : Cosmos.Container) :
  SaleDict.userId body = u ->
  Cosmos.other_tenants u (snd (Cosmos.replace_item i body c)) =
  Cosmos.other_tenants u c.
Proof.
  intros Hu. unfold Cosmos.replace_item. rewrite Hu.
  destruct (existsb _ c); simpl; [|reflexivity].
  unfold Cosmos.other_tenants.
  induction c as [|d c IH]; simpl; [reflexivity|].
  destruct (Cosmos.has_key u i d) eqn:K.
  - apply has_key_true in K as [K _]. rewrite Hu, K, String.eqb_refl. simpl.
    exact IH.
  - destruct (negb (String.eqb (SaleDict.userId d) u)); now rewrite IH.
Qed.

Lemma other_tenants_delete (u i : string) (c : Cosmos.Container) :
  Cosmos.other_tenants u (snd (Cosmos.delete_item i u c)) =
  Cosmos.other_tenants u c.
Proof.
  unfold Cosmos.delete_item.
  destruct (existsb _ c); simpl; [|reflexivity].
  unfold Cosmos.other_tenants.
  induction c as [|d c IH]; simpl; [reflexivity|].
  destruct (Cosmos.has_key u i d) eqn:K; simpl.
  - apply has_key_true in K as [K _]. rewrite K, String.eqb_refl. simpl.
    exact IH.
  - destruct (negb (String.eqb (SaleDict.userId d) u)); now rewrite IH.
Qed.

Lemma new_sale_item_Ok (i u now : string) (p : SaleCreate.t) (s : SaleItem.t) :
  CosmosService.new_sale_item i u p now = Py.Ok s ->
  s = SaleItem.mk i u (SaleCreate.productName p) (SaleCreate.amount p)
        (SaleCreate.saleDate p) (SaleCreate.customerName p)
        (SaleCreate.platform p) now now.
Proof.
  unfold CosmosService.new_sale_item, SaleItem.validate. simpl.
  destruct (_ && _); [|discriminate]. now intros [= <-].
Qed.

Lemma new_sale_item_valid (i u now : string) (p : SaleCreate.t) :
  SaleCreate.valid p = true ->
  CosmosService.new_sale_item i u p now =
  Py.Ok (SaleItem.mk i u (SaleCreate.productName p) (SaleCreate.amount p)
           (SaleCreate.saleDate p) (SaleCreate.customerName p)
           (SaleCreate.platform p) now now).
Proof.
  unfold SaleCreate.valid, CosmosService.new_sale_item, SaleItem.validate.
  simpl. now intros ->.
Qed.

Lemma create_sale_isolated (svc : CosmosService.t) (now : Py.datetime)
      (urandom : Z) (u : string) (p : SaleCreate.t) :
  Cosmos.other_tenants u
    (CosmosService.container (snd (CosmosService.create_sale svc now urandom u p)))
  = Cosmos.other_tenants u (CosmosService.container svc) /\
  forall s, fst (CosmosService.create_sale svc now urandom u p) = Py.Ok s ->
            SaleItem.userId s = u.
Proof.
  unfold CosmosService.create_sale.
  destruct (CosmosService.client svc); simpl.
  - destruct (CosmosService.new_sale_item _ u p _) as [s0|e] eqn:N; simpl.
    + apply new_sale_item_Ok in N.
      destruct (Cosmos.create_item (SaleItem.model_dump s0) _) as [r c'] eqn:C.
      simpl. split.
      * replace c' with (snd (Cosmos.create_item (SaleItem.model_dump s0)
                                (CosmosService.container svc)))
          by now rewrite C.
        apply other_tenants_create. now subst s0.
      * intros s. unfold Cosmos.create_item in C.
        destruct (existsb _ _); injection C as <- <-; simpl; [discriminate|].
        destruct (SaleItem.validate _) as [s1|e] eqn:V; simpl; [|raised].
        intros [= <-]. apply validate_userId in V as [-> _]. now subst s0.
    + split; [reflexivity | discriminate].
  - split; [reflexivity|]. intros s N. apply new_sale_item_Ok in N. now subst s.
Qed.

Lemma update_sale_isolated (svc : CosmosService.t) (now : Py.datetime)
      (u i : string) (upd : SaleUpdate.t) :
  Cosmos.other_tenants u
    (CosmosService.container (snd (CosmosService.update_sale svc now u i upd)))
  = Cosmos.other_tenants u (CosmosService.container svc) /\
  forall s, fst (CosmosService.update_sale svc now u i upd) = Py.Ok (Some s) ->
            SaleItem.userId s = u.
Proof.
  unfold CosmosService.update_sale.
  destruct (CosmosService.client svc) eqn:Hc; simpl;
    [|split; [reflexivity | discriminate]].
  destruct (CosmosService.get_sale svc u i) as [[e|]|x] eqn:G; simpl.
  - apply get_sale_Some_inv in G as (_ & d & Hr & Hv).
    apply read_item_Ok in Hr as (_ & Hu & _).
    apply validate_userId in Hv as [Hv _]. rewrite Hu in Hv.
    set (body := CosmosService.updated_data e upd (Py.isoformat now)).
    assert (Hb : SaleDict.userId body = u) by exact Hv.
    destruct (Cosmos.replace_item i body _) as [r c'] eqn:R. simpl. split.
    + replace c' with (snd (Cosmos.replace_item i body
                              (CosmosService.container svc)))
        by now rewrite R.
      now apply other_tenants_replace.
    + intros s. unfold Cosmos.replace_item in R.
      destruct (existsb _ _); injection R as <- <-; simpl; [|discriminate].
      destruct (SaleItem.validate body) as [s1|x] eqn:V; simpl;
        [|destruct (Py.is_CosmosResourceNotFoundError x); discriminate].
      intros [= <-]. apply validate_userId in V as [-> _]. exact Hb.
  - split; [reflexivity | discriminate].
  - split; [reflexivity|].
    destruct (Py.is_CosmosResourceNotFoundError x); discriminate.
Qed.

Lemma delete_sale_isolated (svc : CosmosService.t) (u i : string) :
  Cosmos.other_tenants u
    (CosmosService.container (snd (CosmosService.delete_sale svc u i)))
  = Cosmos.other_tenants u (CosmosService.container svc).
Proof.
  unfold CosmosService.delete_sale.
  destruct (CosmosService.client svc); simpl; [|reflexivity].
  destruct (Cosmos.delete_item i u _) as [r c'] eqn:D. simpl.
  replace c' with (snd (Cosmos.delete_item i u (CosmosService.container svc)))
    by now rewrite D.
  apply other_tenants_delete.
Qed.

End Partitions.

(** ** Tenant isolation *)

Section Isolation.
Import Models.

Lemma returning_Ok {A} (f : A -> Main.Body) (r : Py.result A) (body : Main.Body) :
  Main.returning f r = Py.Ok body -> exists x, r = Py.Ok x /\ body = f x.
Proof.
  destruct r as [x|e]; simpl; [|discriminate]. intros [= <-]. eauto.
Qed.

(** Whatever the route, a caller is answered with sales of its own
    partition only, and the documents of the other partitions are left
    as they were. *)
Lemma route_isolated (r : Main.Route) (b : string) (svc : CosmosService.t) :
  Cosmos.other_tenants b (CosmosService.container (snd (Main.route r b svc)))
  = Cosmos.other_tenants b (CosmosService.container svc) /\
  forall body, fst (Main.route r b svc) = Py.Ok body ->
    (forall s, In s (Main.sales_of body) -> SaleItem.userId s = b) /\
    (forall q, In q (Main.recent_of body) ->
       exists d, In d (CosmosService.container svc) /\ SaleDict.userId d = b /\
                 RecentSale.validate (Cosmos.select_recent d) = Py.Ok q).
Proof.
  destruct r as [|now rnd p|i|now i upd|i|now|limit|now]; simpl.
  - split; [reflexivity|]. intros body H.
    apply returning_Ok in H as (l & H & ->). simpl.
    split; [|intros q []]. intros s Hs.
    unfold SalesApi.get_sales in H. apply try_except_Ok in H.
    destruct (get_sales_by_user_inv _ _ _ _ _ H Hs) as (d & _ & Hu & Hv).
    apply validate_userId in Hv as [-> _]. exact Hu.
  - unfold SalesApi.create_sale.
    pose proof (create_sale_isolated svc now rnd b p) as [Hc Hs].
    destruct (CosmosService.create_sale svc now rnd b p) as [x svc'].
    simpl in *. split; [exact Hc|]. intros body H.
    apply returning_Ok in H as (s & H & ->). simpl.
    split; [|intros q []]. intros s' [<-|[]]. apply Hs.
    destruct x as [s0|e]; simpl in H; [exact H | revert H; raised].
  - split; [reflexivity|]. intros body H.
    apply returning_Ok in H as (s & H & ->). simpl.
    split; [|intros q []]. intros s' [<-|[]].
    unfold SalesApi.get_sale in H.
    destruct (CosmosService.get_sale svc b i) as [[s0|]|e] eqn:G;
      simpl in H; try discriminate.
    injection H as <-.
    apply get_sale_Some_inv in G as (_ & d & Hr & Hv).
    apply read_item_Ok in Hr as (_ & Hu & _).
    apply validate_userId in Hv as [-> _]. exact Hu.
  - unfold SalesApi.update_sale.
    pose proof (update_sale_isolated svc now b i upd) as [Hc Hs].
    destruct (CosmosService.update_sale svc now b i upd) as [x svc'].
    simpl in *. split; [exact Hc|]. intros body H.
    apply returning_Ok in H as (s & H & ->). simpl.
    split; [|intros q []]. intros s' [<-|[]]. apply Hs.
    destruct x as [[s0|]|e]; simpl in H; try discriminate.
    now injection H as <-.
  - unfold SalesApi.delete_sale.
    pose proof (delete_sale_isolated svc b i) as Hc.
    destruct (CosmosService.delete_sale svc b i) as [x svc'].
    simpl in *. split; [exact Hc|]. intros body H.
    apply returning_Ok in H as (s & H & ->). simpl.
    split; [intros s' [] | intros q []].
  - split; [reflexivity|]. intros body H.
    apply returning_Ok in H as (s & H & ->). simpl.
    split; [intros s' [] | intros q []].
  - split; [reflexivity|]. intros body H.
    apply returning_Ok in H as (l & H & ->). simpl.
    split; [intros s' []|]. intros q Hq.
    unfold DashboardApi.get_recent_sales in H. apply try_except_Ok in H.
    exact (get_recent_sales_inv _ _ _ _ _ H Hq).
  - split; [reflexivity|]. intros body H.
    apply returning_Ok in H as (dd & H & ->). simpl.
    split; [intros s' []|]. intros q Hq.
    unfold DashboardApi.get_dashboard_data in H. apply try_except_Ok in H.
    destruct (CosmosService.get_dashboard_stats svc now b) as [st|e];
      simpl in H; [|discriminate].
    destruct (CosmosService.get_recent_sales svc b 5) as [l|e] eqn:R;
      simpl in H; [|discriminate].
    injection H as <-. simpl in Hq.
    exact (get_recent_sales_inv _ _ _ _ _ R Hq).
Qed.

End Isolation.

(** C1 (tenant isolation).  A sale [x] stored under tenant [a], whose id
    no other tenant uses, is out of reach of a caller [b <> a]: listing
    as [b] does not return it, get, update and delete on its id answer
    404 and leave the service as it was, and no route called by [b]
    returns a sale of another tenant, or changes or removes a document
    of another partition ([x] included). *)
Theorem tenant_isolation
  (svc : CosmosService.t) (a b : string) (x : SaleDict.t) :
  CosmosService.client svc = true ->
  In x (CosmosService.container svc) ->
  SaleDict.userId x = a ->
  a <> b ->
  (forall y, In y (CosmosService.container svc) ->
             SaleDict.id y = SaleDict.id x -> SaleDict.userId y = a) ->
  (forall l, SalesApi.get_sales svc b = Py.Ok l ->
             forall s, In s l -> SaleItem.model_dump s <> x) /\
  CosmosService.get_sale svc b (SaleDict.id x) = Py.Ok None /\
  SalesApi.get_sale svc (SaleDict.id x) b = SalesApi.not_found /\
  (forall now upd,
     CosmosService.update_sale svc now b (SaleDict.id x) upd = (Py.Ok None, svc) /\
     SalesApi.update_sale svc now (SaleDict.id x) upd b = (SalesApi.not_found, svc)) /\
  CosmosService.delete_sale svc b (SaleDict.id x) = (Py.Ok false, svc) /\
  SalesApi.delete_sale svc (SaleDict.id x) b = (SalesApi.not_found, svc) /\
  Main.response_status 200 (SalesApi.get_sale svc (SaleDict.id x) b) = 404%nat /\
  (forall r,
     In x (CosmosService.container (snd (Main.route r b svc))) /\
     Cosmos.other_tenants b (CosmosService.container (snd (Main.route r b svc)))
     = Cosmos.other_tenants b (CosmosService.container svc) /\
     forall body, fst (Main.route r b svc) = Py.Ok body ->
       (forall s, In s (Main.sales_of body) -> SaleItem.userId s = b) /\
       (forall q, In q (Main.recent_of body) ->
          exists d, In d (CosmosService.container svc) /\
                    SaleDict.userId d = b /\
                    RecentSale.validate (Cosmos.select_recent d) = Py.Ok q)).
Proof.
  intros Hc Hx Ha Hab Hid.
  assert (E : existsb (Cosmos.has_key b (SaleDict.id x))
                      (CosmosService.container svc) = false).
  { apply existsb_has_key_false. intros y Hy Hi Hu.
    apply Hab. rewrite <- Hu. symmetry. now apply Hid. }
  assert (G : CosmosService.get_sale svc b (SaleDict.id x) = Py.Ok None)
    by now apply get_sale_absent.
  assert (D : CosmosService.delete_sale svc b (SaleDict.id x) = (Py.Ok false, svc)).
  { unfold CosmosService.delete_sale, Cosmos.delete_item.
    rewrite Hc, E. simpl. now rewrite with_container_same. }
  assert (U : forall now upd,
             CosmosService.update_sale svc now b (SaleDict.id x) upd
             = (Py.Ok None, svc)).
  { intros now upd. unfold CosmosService.update_sale. now rewrite Hc, G. }
  repeat split.
  - intros l Hl s Hs Hd.
    unfold SalesApi.get_sales in Hl. apply try_except_Ok in Hl.
    destruct (get_sales_by_user_inv _ _ _ _ _ Hl Hs) as (d & _ & Hu & Hv).
    apply validate_inv in Hv as [Hv _].
    apply Hab. rewrite <- Ha, <- Hu. congruence.
  - exact G.
  - unfold SalesApi.get_sale. now rewrite G.
  - apply U.
  - unfold SalesApi.update_sale. now rewrite U.
  - exact D.
  - unfold SalesApi.delete_sale. now rewrite D.
  - unfold SalesApi.get_sale. now rewrite G.
  - destruct (route_isolated r b svc) as [Ho _].
    assert (Hin : In x (Cosmos.other_tenants b (CosmosService.container svc))).
    { apply filter_In. split; [exact Hx|].
      rewrite Ha. apply negb_true_iff. now apply String.eqb_neq. }
    rewrite <- Ho in Hin. now apply filter_In in Hin.
  - apply route_isolated.
  - now apply (route_isolated r b svc).
  - now apply (route_isolated r b svc).
Qed.

Lemma tenant_isolation_witness :
  SalesApi.get_sale Sample.online (SaleDict.id Sample.sale_u1) "u2"
  = SalesApi.not_found /\
  SalesApi.delete_sale Sample.online (SaleDict.id Sample.sale_u1) "u2"
  = (SalesApi.not_found, Sample.online) /\
  In Sample.sale_u1
     (CosmosService.container
        (snd (Main.route (Main.DELETE_sale (SaleDict.id Sample.sale_u1)) "u2"
                Sample.online))).
Proof.
  assert (H := tenant_isolation Sample.online "u1" "u2" Sample.sale_u1).
  destruct H as (_ & _ & Hg & _ & _ & Hd & _ & Hr).
  - reflexivity.
  - simpl. auto.
  - reflexivity.
  - discriminate.
  - intros y [<-|[<-|[]]]; [reflexivity | discriminate].
  - split; [exact Hg|]. split; [exact Hd|]. apply Hr.
Defined.

(** ** Identity extraction *)

Section Identity.

Variable b64decode : string -> Py.result string.
Variable json_loads : string -> Py.result Json.json.

Let get_current_user := SwaAuth.get_current_user b64decode json_loads.

Lemma get_current_user_no_header (request : SwaAuth.Request) :
  SwaAuth.headers_get "x-ms-client-principal" request = None \/
  SwaAuth.headers_get "x-ms-client-principal" request = Some EmptyString ->
  get_current_user request =
  Py.Raise (Py.HTTPException 401
              "Authentication required. No client principal found.").
Proof.
  unfold get_current_user, SwaAuth.get_current_user.
  now intros [-> | ->].
Qed.

Lemma get_current_user_bad_base64 (request : SwaAuth.Request)
      (header msg : string) :
  SwaAuth.headers_get "x-ms-client-principal" request = Some header -> header <> EmptyString ->
  b64decode header = Py.Raise (Py.ValueError msg) ->
  get_current_user request =
  Py.Raise (Py.HTTPException 401 ("Invalid authentication data: " ++ msg)).
Proof.
  unfold get_current_user, SwaAuth.get_current_user.
  intros -> Hne Hd. destruct header; [contradiction|]. now rewrite Hd.
Qed.

Lemma get_current_user_bad_json (request : SwaAuth.Request)
      (header decoded msg : string) :
  SwaAuth.headers_get "x-ms-client-principal" request = Some header -> header <> EmptyString ->
  b64decode header = Py.Ok decoded ->
  json_loads decoded = Py.Raise (Py.ValueError msg) ->
  get_current_user request =
  Py.Raise (Py.HTTPException 401 ("Invalid authentication data: " ++ msg)).
Proof.
  unfold get_current_user, SwaAuth.get_current_user.
  intros -> Hne Hd Hj. destruct header; [contradiction|].
  rewrite Hd. simpl. now rewrite Hj.
Qed.

(** What a dict payload yields: a falsy [userId] is refused, and the
    sentinels replace a falsy [userDetails] or [identityProvider]. *)
Lemma get_current_user_object (request : SwaAuth.Request)
      (header decoded : string) (l : list (string * Json.json)) :
  SwaAuth.headers_get "x-ms-client-principal" request = Some header -> header <> EmptyString ->
  b64decode header = Py.Ok decoded ->
  json_loads decoded = Py.Ok (Json.JObj l) ->
  let field k default :=
    match Json.lookup k l with Some v => v | None => default end in
  get_current_user request =
  if Json.truthy (field "userId" Json.JNull) then
    Py.Ok {| SwaAuth.userId := field "userId" Json.JNull;
             SwaAuth.userDetails :=
               if Json.truthy (field "userDetails" Json.JNull)
               then field "userDetails" Json.JNull
               else Json.JStr "Unknown User";
             SwaAuth.provider :=
               if Json.truthy (field "identityProvider" Json.JNull)
               then field "identityProvider" Json.JNull
               else Json.JStr "unknown";
             SwaAuth.claims := field "claims" (Json.JArr []) |}
  else Py.Raise (Py.HTTPException 401
                   "Invalid authentication. User ID not found.").
Proof.
  unfold get_current_user, SwaAuth.get_current_user.
  intros -> Hne Hd Hj. destruct header; [contradiction|].
  rewrite Hd. cbn [Py.bind]. rewrite Hj. cbn [Py.bind Json.get].
  destruct (Json.truthy _); reflexivity.
Qed.

Lemma get_current_user_not_object (request : SwaAuth.Request)
      (header decoded : string) (payload : Json.json) :
  SwaAuth.headers_get "x-ms-client-principal" request = Some header -> header <> EmptyString ->
  b64decode header = Py.Ok decoded ->
  json_loads decoded = Py.Ok payload ->
  (forall l, payload <> Json.JObj l) ->
  get_current_user request =
  Py.Raise (Py.AttributeError "object has no attribute 'get'").
Proof.
  unfold get_current_user, SwaAuth.get_current_user.
  intros -> Hne Hd Hj Hp. destruct header; [contradiction|].
  rewrite Hd. cbn [Py.bind]. rewrite Hj. cbn [Py.bind].
  destruct payload; try reflexivity. now elim (Hp l).
Qed.

End Identity.

(** C2 (identity extraction fails closed).  The code departs from the
    claim on a payload that decodes and parses but is not a JSON object
    (an array, a string, a number, a boolean or null): [.get] raises
    [AttributeError], which the [except] clause does not catch, and the
    application answers 500 instead of 401. *)
Theorem get_current_user_non_object_payload
  (b64decode : string -> Py.result string)
  (json_loads : string -> Py.result Json.json)
  (request : SwaAuth.Request) (header decoded : string) (payload : Json.json) :
  SwaAuth.headers_get "x-ms-client-principal" request = Some header ->
  header <> EmptyString ->
  b64decode header = Py.Ok decoded ->
  json_loads decoded = Py.Ok payload ->
  (forall l, payload <> Json.JObj l) ->
  exists msg,
    SwaAuth.get_current_user b64decode json_loads request
    = Py.Raise (Py.AttributeError msg) /\
    SwaAuth.get_user_id b64decode json_loads request
    = Py.Raise (Py.AttributeError msg) /\
    Main.exception_handler (Py.AttributeError msg)
    = Main.mkJSONResponse 500 "Internal server error" 500.
Proof.
  intros Hh Hne Hd Hj Hp. eexists. split; [|split].
  - eapply get_current_user_not_object; eauto.
  - unfold SwaAuth.get_user_id.
    erewrite get_current_user_not_object; eauto.
  - reflexivity.
Qed.

Lemma get_current_user_non_object_payload_witness :
  exists msg,
    SwaAuth.get_current_user Base64.b64decode Json.loads [("x-ms-client-principal", "W10=")]
    = Py.Raise (Py.AttributeError msg) /\
    SwaAuth.get_user_id Base64.b64decode Json.loads [("x-ms-client-principal", "W10=")]
    = Py.Raise (Py.AttributeError msg) /\
    Main.exception_handler (Py.AttributeError msg)
    = Main.mkJSONResponse 500 "Internal server error" 500.
Proof.
  apply (get_current_user_non_object_payload Base64.b64decode Json.loads
           [("x-ms-client-principal", "W10=")] "W10=" "[]" (Json.JArr [])).
  - reflexivity.
  - discriminate.
  - reflexivity.
  - reflexivity.
  - discriminate.
Defined.

(** C10 (falsy identity fields).  For a dict payload, [userDetails] and
    [identityProvider] are replaced by "Unknown User" and "unknown"
    whenever they are falsy (absent, null, the empty string, and every
    other falsy value), and a falsy [userId] (absent, null, the empty
    string) is answered 401 like a missing one. *)
Theorem get_current_user_falsy_fields
  (b64decode : string -> Py.result string)
  (json_loads : string -> Py.result Json.json)
  (request : SwaAuth.Request) (header decoded : string)
  (l : list (string * Json.json)) :
  SwaAuth.headers_get "x-ms-client-principal" request = Some header ->
  header <> EmptyString ->
  b64decode header = Py.Ok decoded ->
  json_loads decoded = Py.Ok (Json.JObj l) ->
  let field k := match Json.lookup k l with Some v => v | None => Json.JNull end in
  let unauthenticated :=
    Py.Raise (Py.HTTPException 401 "Invalid authentication. User ID not found.") in
  let user := SwaAuth.get_current_user b64decode json_loads request in
  (Json.truthy (field "userId") = false -> user = unauthenticated) /\
  (Json.lookup "userId" l = None \/ field "userId" = Json.JNull \/
   field "userId" = Json.JStr EmptyString -> user = unauthenticated) /\
  (Json.truthy (field "userId") = true ->
   exists u,
     user = Py.Ok u /\
     SwaAuth.userId u = field "userId" /\
     SwaAuth.userDetails u =
       (if Json.truthy (field "userDetails") then field "userDetails"
        else Json.JStr "Unknown User") /\
     SwaAuth.provider u =
       (if Json.truthy (field "identityProvider") then field "identityProvider"
        else Json.JStr "unknown") /\
     (field "userDetails" = Json.JNull \/ field "userDetails" = Json.JStr EmptyString ->
      SwaAuth.userDetails u = Json.JStr "Unknown User") /\
     (field "identityProvider" = Json.JNull \/
      field "identityProvider" = Json.JStr EmptyString ->
      SwaAuth.provider u = Json.JStr "unknown")) /\
  Main.status_code (Main.exception_handler
                      (Py.HTTPException 401
                         "Invalid authentication. User ID not found.")) = 401%nat.
Proof.
  intros Hh Hne Hd Hj field unauthenticated user.
  assert (E := get_current_user_object b64decode json_loads request header
                 decoded l Hh Hne Hd Hj).
  subst field unauthenticated user. cbv beta zeta in *.
  set (uid := match Json.lookup "userId" l with
              | Some v => v | None => Json.JNull end) in *.
  set (ud := match Json.lookup "userDetails" l with
             | Some v => v | None => Json.JNull end) in *.
  set (ip := match Json.lookup "identityProvider" l with
             | Some v => v | None => Json.JNull end) in *.
  rewrite E. clear E.
  assert (F : Json.truthy uid = false ->
              (if Json.truthy uid
               then Py.Ok {| SwaAuth.userId := uid;
                             SwaAuth.userDetails :=
                               if Json.truthy ud then ud
                               else Json.JStr "Unknown User";
                             SwaAuth.provider :=
                               if Json.truthy ip then ip
                               else Json.JStr "unknown";
                             SwaAuth.claims :=
                               match Json.lookup "claims" l with
                               | Some v => v
                               | None => Json.JArr []
                               end |}
               else Py.Raise (Py.HTTPException 401
                                "Invalid authentication. User ID not found."))
              = Py.Raise (Py.HTTPException 401
                            "Invalid authentication. User ID not found.")).
  { now intros ->. }
  split; [exact F|]. split; [|split; [|reflexivity]].
  - intros [H|[H|H]]; apply F.
    + subst uid. now rewrite H.
    + now rewrite H.
    + now rewrite H.
  - intros ->. eexists. split; [reflexivity|]. simpl.
    repeat split.
    + intros [H|H]; now rewrite H.
    + intros [H|H]; now rewrite H.
Qed.

Lemma get_current_user_falsy_fields_witness :
  SwaAuth.get_current_user Base64.b64decode Json.loads
    [("x-ms-client-principal", "eyJ1c2VySWQiOiAiIiwgInVzZXJEZXRhaWxzIjogIkFubiJ9")]
  = Py.Raise (Py.HTTPException 401 "Invalid authentication. User ID not found.").
Proof.
  edestruct (get_current_user_falsy_fields Base64.b64decode Json.loads
               [("x-ms-client-principal", "eyJ1c2VySWQiOiAiIiwgInVzZXJEZXRhaWxzIjogIkFubiJ9")]
               "eyJ1c2VySWQiOiAiIiwgInVzZXJEZXRhaWxzIjogIkFubiJ9")
    as [H _].
  - reflexivity.
  - discriminate.
  - reflexivity.
  - reflexivity.
  - apply H. reflexivity.
Defined.

(** ** Without a client *)

(** C3 (degraded mode), as the code has it.  Without a client the list,
    the dashboard statistics and the recent sales are empty or zero;
    get-by-id, update and delete raise [RuntimeError] (answered 500) and
    leave the service as it was; create does not fail: it returns the
    sale built from the payload, with a fresh id and timestamps, and
    stores nothing. *)
Theorem degraded_mode
  (svc : CosmosService.t) (now : Py.datetime) (urandom : Z)
  (u i : string) (limit : Z) (p : SaleCreate.t) (upd : SaleUpdate.t) :
  CosmosService.client svc = false ->
  CosmosService.get_sales_by_user svc u limit = Py.Ok [] /\
  CosmosService.get_dashboard_stats svc now u
  = Py.Ok (DashboardStats.mk 0 0 0 0) /\
  CosmosService.get_recent_sales svc u limit = Py.Ok [] /\
  CosmosService.get_sale svc u i = Py.Raise CosmosService.not_initialized /\
  CosmosService.update_sale svc now u i upd
  = (Py.Raise CosmosService.not_initialized, svc) /\
  CosmosService.delete_sale svc u i
  = (Py.Raise CosmosService.not_initialized, svc) /\
  Main.response_status 200 (SalesApi.get_sale svc i u) = 500%nat /\
  Main.response_status 200 (fst (SalesApi.update_sale svc now i upd u)) = 500%nat /\
  Main.response_status 204 (fst (SalesApi.delete_sale svc i u)) = 500%nat /\
  CosmosService.create_sale svc now urandom u p
  = (CosmosService.new_sale_item (Py.str_uuid (Py.uuid4 urandom)) u p
       (Py.isoformat now), svc) /\
  (SaleCreate.valid p = true ->
   CosmosService.create_sale svc now urandom u p
   = (Py.Ok (SaleItem.mk (Py.str_uuid (Py.uuid4 urandom)) u
               (SaleCreate.productName p) (SaleCreate.amount p)
               (SaleCreate.saleDate p) (SaleCreate.customerName p)
               (SaleCreate.platform p) (Py.isoformat now) (Py.isoformat now)),
      svc) /\
   Main.response_status 201 (fst (SalesApi.create_sale svc now urandom p u))
   = 201%nat).
Proof.
  intros Hc.
  unfold CosmosService.get_sales_by_user, CosmosService.get_dashboard_stats,
    CosmosService.get_recent_sales, SalesApi.get_sale, SalesApi.update_sale,
    SalesApi.delete_sale, SalesApi.create_sale, CosmosService.get_sale,
    CosmosService.update_sale, CosmosService.delete_sale,
    CosmosService.create_sale.
  rewrite Hc. cbn [negb].
  repeat split; try reflexivity.
  - now rewrite new_sale_item_valid.
  - rewrite new_sale_item_valid by assumption. reflexivity.
Qed.

Lemma degraded_mode_witness :
  CosmosService.get_sales_by_user Sample.offline "u1" 100 = Py.Ok [] /\
  CosmosService.get_sale Sample.offline "u1" "s1"
  = Py.Raise CosmosService.not_initialized /\
  CosmosService.delete_sale Sample.offline "u1" "s1"
  = (Py.Raise CosmosService.not_initialized, Sample.offline).
Proof.
  destruct (degraded_mode Sample.offline Sample.now 7 "u1" "s1" 100
              Sample.widget (SaleUpdate.mk None None None None None))
    as (Hl & _ & _ & Hg & _ & Hd & _).
  - reflexivity.
  - repeat split; assumption.
Defined.

(** The claim as stated fails on both counts it makes for create and
    get-by-id: without a client, creating a sale returns a sale instead
    of failing, and reading one by id raises instead of returning
    absent. *)
Lemma degraded_mode_counterexample :
  (exists s,
     CosmosService.create_sale Sample.offline Sample.now 7 "u1" Sample.widget
     = (Py.Ok s, Sample.offline) /\
     SaleItem.userId s = "u1" /\ SaleItem.productName s = "Widget") /\
  CosmosService.get_sale Sample.offline "u1" "s1" <> Py.Ok None.
Proof.
  split.
  - eexists. split; [reflexivity|]. split; reflexivity.
  - discriminate.
Qed.

(** ** Delete *)

Lemma existsb_filter_negb (f : SaleDict.t -> bool) (c : Cosmos.Container) :
  existsb f (filter (fun d => negb (f d)) c) = false.
Proof.
  induction c as [|d c IH]; simpl; [reflexivity|].
  destruct (f d) eqn:E; simpl; [exact IH|]. now rewrite E.
Qed.

(** C8 (delete reports whether the item existed).  With a client,
    deleting a stored sale returns true (204), after which the sale is
    absent and the same delete returns false (404); deleting an id the
    tenant does not have returns false (404) and changes nothing.  The
    other documents are kept. *)
Theorem delete_sale_reports_existence
  (svc : CosmosService.t) (u i : string) :
  CosmosService.client svc = true ->
  ((exists d, In d (CosmosService.container svc) /\
              SaleDict.userId d = u /\ SaleDict.id d = i) ->
   exists svc',
     CosmosService.delete_sale svc u i = (Py.Ok true, svc') /\
     SalesApi.delete_sale svc i u = (Py.Ok tt, svc') /\
     Main.response_status 204 (fst (SalesApi.delete_sale svc i u)) = 204%nat /\
     CosmosService.get_sale svc' u i = Py.Ok None /\
     (forall d, In d (CosmosService.container svc') <->
                In d (CosmosService.container svc) /\
                ~ (SaleDict.userId d = u /\ SaleDict.id d = i)) /\
     CosmosService.delete_sale svc' u i = (Py.Ok false, svc') /\
     SalesApi.delete_sale svc' i u = (SalesApi.not_found, svc') /\
     Main.response_status 204 (fst (SalesApi.delete_sale svc' i u)) = 404%nat) /\
  ((forall d, In d (CosmosService.container svc) ->
              ~ (SaleDict.userId d = u /\ SaleDict.id d = i)) ->
   CosmosService.delete_sale svc u i = (Py.Ok false, svc) /\
   SalesApi.delete_sale svc i u = (SalesApi.not_found, svc) /\
   Main.response_status 204 (fst (SalesApi.delete_sale svc i u)) = 404%nat).
Proof.
  intros Hc.
  assert (Absent : forall s : CosmosService.t,
             CosmosService.client s = true ->
             existsb (Cosmos.has_key u i) (CosmosService.container s) = false ->
             CosmosService.delete_sale s u i = (Py.Ok false, s) /\
             SalesApi.delete_sale s i u = (SalesApi.not_found, s) /\
             Main.response_status 204 (fst (SalesApi.delete_sale s i u)) = 404%nat).
  { intros s Hs E.
    assert (D : CosmosService.delete_sale s u i = (Py.Ok false, s)).
    { unfold CosmosService.delete_sale, Cosmos.delete_item.
      rewrite Hs, E. simpl. now rewrite with_container_same. }
    unfold SalesApi.delete_sale. rewrite D. repeat split. }
  split.
  - intros (d & Hin & Hu & Hi).
    assert (E : existsb (Cosmos.has_key u i) (CosmosService.container svc) = true).
    { apply existsb_exists. exists d. split; [exact Hin|].
      now apply has_key_true. }
    set (c' := filter (fun d => negb (Cosmos.has_key u i d))
                      (CosmosService.container svc)).
    exists (CosmosService.with_container svc c').
    assert (D : CosmosService.delete_sale svc u i
                = (Py.Ok true, CosmosService.with_container svc c')).
    { unfold CosmosService.delete_sale, Cosmos.delete_item.
      rewrite Hc, E. reflexivity. }
    assert (E' : existsb (Cosmos.has_key u i)
                   (CosmosService.container (CosmosService.with_container svc c'))
                 = false) by apply existsb_filter_negb.
    destruct (Absent (CosmosService.with_container svc c') Hc E') as (A1 & A2 & A3).
    repeat split; try assumption.
    + unfold SalesApi.delete_sale. now rewrite D.
    + unfold SalesApi.delete_sale. now rewrite D.
    + now apply get_sale_absent.
    + simpl in H. apply filter_In in H. tauto.
    + simpl in H. apply filter_In in H as [_ H].
      intros K. apply has_key_true in K. now rewrite K in H.
    + intros [H1 H2]. simpl. apply filter_In. split; [exact H1|].
      destruct (Cosmos.has_key u i d0) eqn:K; [|reflexivity].
      apply has_key_true in K. contradiction.
  - intros H. apply Absent; [exact Hc|].
    apply existsb_has_key_false. intros d Hin Hi Hu. exact (H d Hin (conj Hu Hi)).
Qed.

Lemma delete_sale_reports_existence_witness :
  SalesApi.delete_sale Sample.online (SaleDict.id Sample.sale_u1) "u1"
  = (Py.Ok tt, CosmosService.mk true [Sample.sale_u2]) /\
  SalesApi.delete_sale (CosmosService.mk true [Sample.sale_u2])
    (SaleDict.id Sample.sale_u1) "u1"
  = (SalesApi.not_found, CosmosService.mk true [Sample.sale_u2]).
Proof.
  destruct (delete_sale_reports_existence Sample.online "u1"
              (SaleDict.id Sample.sale_u1)) as [H _]; [reflexivity|].
  destruct H as (svc' & H1 & H2 & _ & _ & _ & _ & H3 & _).
  - exists Sample.sale_u1. simpl. auto.
  - assert (E : svc' = CosmosService.mk true [Sample.sale_u2]).
    { apply (f_equal snd) in H1. simpl in H1. symmetry. exact H1. }
    rewrite E in *. split; assumption.
Defined.

(** ** Update *)

Section Replace.

Variables (u i : string) (body : SaleDict.t).
Hypothesis body_key : Cosmos.has_key u i body = true.

Let replaced (c : Cosmos.Container) : Cosmos.Container :=
  map (fun d => if Cosmos.has_key u i d then body else d) c.

Lemma find_replaced_same (c : Cosmos.Container) :
  existsb (Cosmos.has_key u i) c = true ->
  find (Cosmos.has_key u i) (replaced c) = Some body.
Proof.
  induction c as [|d c IH]; simpl; [discriminate|].
  destruct (Cosmos.has_key u i d) eqn:K; simpl.
  - now rewrite body_key.
  - now rewrite K.
Qed.

Lemma find_replaced_other (pk j : string) (c : Cosmos.Container) :
  (pk, j) <> (u, i) ->
  find (Cosmos.has_key pk j) (replaced c) = find (Cosmos.has_key pk j) c.
Proof.
  intros Hne.
  assert (N : forall d, Cosmos.has_key u i d = true ->
                        Cosmos.has_key pk j d = false).
  { intros d K. apply has_key_true in K as [Ku Ki].
    destruct (Cosmos.has_key pk j d) eqn:K'; [|reflexivity].
    apply has_key_true in K' as [Ku' Ki']. elim Hne. congruence. }
  induction c as [|d c IH]; simpl; [reflexivity|].
  destruct (Cosmos.has_key u i d) eqn:K.
  - now rewrite (N body body_key), (N d K).
  - now rewrite IH.
Qed.

End Replace.

Lemma validate_Raise (d : SaleDict.t) (e : Py.exn) :
  SaleItem.validate d = Py.Raise e ->
  e = Py.ValueError "validation error for SaleItem".
Proof.
  unfold SaleItem.validate.
  destruct (SaleDict.productName d), (SaleDict.amount d),
    (SaleDict.saleDate d), (SaleDict.platform d);
    try (now intros [= <-]).
  destruct (_ && _); [discriminate | now intros [= <-]].
Qed.

(** C4 (partial update).  With a client, updating a stored sale writes
    back a document in which every data field the payload set has the
    payload's value, every other data field and [id], [userId] and
    [createdAt] are as stored, and [updatedAt] is the current time; no
    other document changes, and none is added.  When the tenant has no
    item with that id the update returns absent and writes nothing. *)
Theorem update_sale_frame
  (svc : CosmosService.t) (now : Py.datetime) (u i : string)
  (upd : SaleUpdate.t) :
  CosmosService.client svc = true ->
  (forall d existing,
     Cosmos.read_item i u (CosmosService.container svc) = Py.Ok d ->
     SaleItem.validate d = Py.Ok existing ->
     exists d' svc',
       CosmosService.update_sale svc now u i upd
       = (match SaleItem.validate d' with
          | Py.Ok s => Py.Ok (Some s)
          | Py.Raise e =>
              Py.Raise (Py.RuntimeError ("Failed to update sale: " ++ Py.str e))
          end, svc') /\
       Cosmos.read_item i u (CosmosService.container svc') = Py.Ok d' /\
       SaleDict.id d' = SaleDict.id d /\
       SaleDict.userId d' = SaleDict.userId d /\
       SaleDict.createdAt d' = SaleDict.createdAt d /\
       SaleDict.updatedAt d' = Py.isoformat now /\
       SaleDict.productName d' =
         match SaleUpdate.productName upd with
         | Some v => v | None => SaleDict.productName d end /\
       SaleDict.amount d' =
         match SaleUpdate.amount upd with
         | Some v => v | None => SaleDict.amount d end /\
       SaleDict.saleDate d' =
         match SaleUpdate.saleDate upd with
         | Some v => v | None => SaleDict.saleDate d end /\
       SaleDict.customerName d' =
         match SaleUpdate.customerName upd with
         | Some v => v | None => SaleDict.customerName d end /\
       SaleDict.platform d' =
         match SaleUpdate.platform upd with
         | Some v => v | None => SaleDict.platform d end /\
       (forall pk j, (pk, j) <> (u, i) ->
          Cosmos.read_item j pk (CosmosService.container svc')
          = Cosmos.read_item j pk (CosmosService.container svc)) /\
       length (CosmosService.container svc')
       = length (CosmosService.container svc)) /\
  ((forall d, In d (CosmosService.container svc) ->
              ~ (SaleDict.userId d = u /\ SaleDict.id d = i)) ->
   CosmosService.update_sale svc now u i upd = (Py.Ok None, svc) /\
   SalesApi.update_sale svc now i upd u = (SalesApi.not_found, svc)).
Proof.
  intros Hc. split.
  - intros d existing Hr Hv.
    pose proof (get_sale_found svc u i d existing Hc Hr Hv) as G.
    pose proof (validate_inv _ _ Hv) as [Hd _].
    destruct (read_item_Ok _ _ _ _ Hr) as (Hin & Hu & Hi).
    set (body := CosmosService.updated_data existing upd (Py.isoformat now)).
    assert (Kb : Cosmos.has_key u i body = true).
    { apply has_key_true. subst body. rewrite <- Hu, <- Hi, <- Hd. split; reflexivity. }
    assert (Ku : SaleDict.userId body = u) by now apply has_key_true in Kb.
    assert (E : existsb (Cosmos.has_key u i) (CosmosService.container svc) = true).
    { apply existsb_exists. exists d. split; [exact Hin|]. now apply has_key_true. }
    exists body.
    exists (CosmosService.with_container svc
              (map (fun d0 => if Cosmos.has_key u i d0 then body else d0)
                   (CosmosService.container svc))).
    split; [|split].
    + unfold CosmosService.update_sale. rewrite Hc, G. cbn [negb].
      fold body. unfold Cosmos.replace_item. rewrite Ku, E.
      cbn [Py.bind Py.try_except2].
      destruct (SaleItem.validate body) as [s|e] eqn:V; [reflexivity|].
      now rewrite (validate_Raise _ _ V).
    + cbn [CosmosService.container CosmosService.with_container].
      unfold Cosmos.read_item.
      now rewrite (find_replaced_same u i body Kb _ E).
    + cbn [CosmosService.container CosmosService.with_container].
      clear Kb Ku. subst body. rewrite <- Hd.
      repeat split; try reflexivity.
      * intros pk j Hne. unfold Cosmos.read_item.
        rewrite find_replaced_other; [reflexivity | | exact Hne].
        apply has_key_true. rewrite <- Hu, <- Hi, <- Hd. split; reflexivity.
      * apply length_map.
  - intros H.
    assert (E : existsb (Cosmos.has_key u i) (CosmosService.container svc) = false).
    { apply existsb_has_key_false. intros d Hin Hi Hu. exact (H d Hin (conj Hu Hi)). }
    assert (U : CosmosService.update_sale svc now u i upd = (Py.Ok None, svc)).
    { unfold CosmosService.update_sale.
      now rewrite Hc, (get_sale_absent svc u i Hc E). }
    split; [exact U|]. unfold SalesApi.update_sale. now rewrite U.
Qed.

Lemma update_sale_frame_witness :
  exists d' svc',
    fst (CosmosService.update_sale Sample.online Sample.later "u1"
           (SaleDict.id Sample.sale_u1) Sample.reprice)
    = match SaleItem.validate d' with
      | Py.Ok s => Py.Ok (Some s)
      | Py.Raise e =>
          Py.Raise (Py.RuntimeError ("Failed to update sale: " ++ Py.str e))
      end /\
    Cosmos.read_item (SaleDict.id Sample.sale_u1) "u1"
      (CosmosService.container svc') = Py.Ok d' /\
    SaleDict.amount d' = Some 12%Q /\
    SaleDict.productName d' = Some "Widget" /\
    SaleDict.createdAt d' = Py.isoformat Sample.now /\
    SaleDict.updatedAt d' = Py.isoformat Sample.later.
Proof.
  destruct (update_sale_frame Sample.online Sample.later "u1"
              (SaleDict.id Sample.sale_u1) Sample.reprice eq_refl) as [H _].
  edestruct (H Sample.sale_u1) as (d' & svc' & H1 & H2 & _ & _ & H3 & H4 & H5 & H6 & _).
  - reflexivity.
  - reflexivity.
  - exists d', svc'. rewrite H1. repeat split; assumption.
Defined.

(** ** Dashboard statistics *)

Section Stats.

Lemma first_or_zero_select_value {A} (zero : A) (v : option A) :
  CosmosService.first_or_zero zero
    (CosmosService.list_query_items (Cosmos.select_value v) None)
  = match v with Some x => x | None => zero end.
Proof. rewrite list_query_items_all. now destruct v. Qed.

(** An aggregate that comes back with no row, or with a null in its
    first row, counts as zero. *)
Lemma first_or_zero_default {A} (zero : A) (r : list (option A)) :
  CosmosService.first_or_zero zero [] = zero /\
  CosmosService.first_or_zero zero (None :: r) = zero.
Proof. split; reflexivity. Qed.

Lemma get_dashboard_stats_online (svc : CosmosService.t) (now : Py.datetime)
      (u : string) :
  CosmosService.client svc = true ->
  let rows := Cosmos.where_userId u (CosmosService.container svc) in
  CosmosService.get_dashboard_stats svc now u =
  Py.Ok (DashboardStats.mk
           (match Cosmos.SUM rows with Some x => x | None => 0%Q end)
           (Cosmos.COUNT rows)
           (match Cosmos.SUM (filter (Cosmos.startswith_saleDate
                                        (Py.strftime_Y_m now)) rows)
            with Some x => x | None => 0%Q end)
           (match Cosmos.AVG rows with Some x => x | None => 0%Q end)).
Proof.
  intros Hc rows. unfold CosmosService.get_dashboard_stats.
  rewrite Hc. cbn [negb]. fold rows.
  now rewrite !first_or_zero_select_value.
Qed.

Lemma amounts_model_dump (sales : list SaleItem.t) :
  Cosmos.amounts (map SaleItem.model_dump sales)
  = Some (map SaleItem.amount sales).
Proof.
  induction sales as [|s sales IH]; simpl; [reflexivity|]. now rewrite IH.
Qed.

Lemma filter_model_dump (pre : string) (sales : list SaleItem.t) :
  filter (Cosmos.startswith_saleDate pre) (map SaleItem.model_dump sales)
  = map SaleItem.model_dump
      (filter (fun s => String.prefix pre (SaleItem.saleDate s)) sales).
Proof.
  induction sales as [|s sales IH]; simpl; [reflexivity|].
  unfold Cosmos.startswith_saleDate at 1. simpl.
  destruct (String.prefix pre (SaleItem.saleDate s)); simpl; now rewrite IH.
Qed.

Lemma amounts_length (rows : list SaleDict.t) (l : list Q) :
  Cosmos.amounts rows = Some l -> length l = length rows.
Proof.
  revert l. induction rows as [|d rows IH]; simpl; intros l.
  - now intros [= <-].
  - destruct (SaleDict.amount d); [|discriminate].
    destruct (Cosmos.amounts rows) as [r|]; [|discriminate].
    intros [= <-]. simpl. now rewrite (IH r).
Qed.

End Stats.





(** ** Recent sales *)

Lemma min_spec (a b : Z) : Py.min a b = Z.min a b.
Proof. unfold Py.min. destruct (Z.ltb_spec b a); lia. Qed.

(** C7 (cap on recent sales).  The handler passes [min(limit, 20)] on,
    but the service hands it to the query as [max_item_count], the size
    of a page, and drains every page: with a client, a tenant whose
    records are the sales [sales] gets all of them back, whatever the
    limit. *)
Theorem get_recent_sales_returns_every_sale
  (svc : CosmosService.t) (limit : Z) (u : string) (sales : list SaleItem.t) :
  CosmosService.client svc = true ->
  Cosmos.where_userId u (CosmosService.container svc)
  = map SaleItem.model_dump sales ->
  DashboardApi.get_recent_sales svc limit u
  = Py.try_except
      (CosmosService.get_recent_sales svc u (Z.min limit 20))
      Py.is_Exception
      (fun e => Py.Raise (Py.HTTPException 500
                            ("Failed to retrieve recent sales: " ++ Py.str e))) /\
  exists l,
    DashboardApi.get_recent_sales svc limit u = Py.Ok l /\
    length l = length sales /\
    Permutation (map RecentSale.id l) (map SaleItem.id sales).
Proof.
  intros Hc Hrows. split.
  - unfold DashboardApi.get_recent_sales. now rewrite min_spec.
  - unfold DashboardApi.get_recent_sales, CosmosService.get_recent_sales.
    rewrite Hc. cbn [negb]. rewrite list_query_items_all, Hrows.
    set (rows := Cosmos.order_by_saleDate_desc (map SaleItem.model_dump sales)).
    assert (P : Permutation rows (map SaleItem.model_dump sales))
      by apply order_by_saleDate_desc_perm.
    set (g := fun d : SaleDict.t =>
                RecentSale.mk (SaleDict.id d)
                  (match SaleDict.productName d with Some x => x | None => EmptyString end)
                  (match SaleDict.amount d with Some x => x | None => 0%Q end)
                  (match SaleDict.saleDate d with Some x => x | None => EmptyString end)
                  (match SaleDict.platform d with Some x => x | None => MANUAL end)
                  (SaleDict.customerName d)).
    assert (C : Py.comprehension RecentSale.validate (map Cosmos.select_recent rows)
                = Py.Ok (map g rows)).
    { rewrite <- (map_map Cosmos.select_recent
                    (fun r => g (SaleDict.mk (RecentDict.id r) EmptyString
                                   (RecentDict.productName r) (RecentDict.amount r)
                                   (RecentDict.saleDate r) (RecentDict.customerName r)
                                   (RecentDict.platform r) EmptyString EmptyString))).
      apply comprehension_total. intros r Hr.
      apply in_map_iff in Hr as (d & <- & Hd).
      apply (Permutation_in _ P) in Hd.
      apply in_map_iff in Hd as (s & <- & _). reflexivity. }
    rewrite C. exists (map g rows). split; [reflexivity|]. split.
    + rewrite length_map, (Permutation_length P). apply length_map.
    + rewrite map_map. cbn [g RecentSale.id].
      rewrite (Permutation_map SaleDict.id P), map_map. reflexivity.
Qed.

(** The failing input: a tenant with twenty-one sales asks for the
    recent ones with [limit=100] and receives twenty-one. *)
Lemma get_recent_sales_returns_every_sale_witness :
  exists l,
    DashboardApi.get_recent_sales Sample.crowded 100 "u1" = Py.Ok l /\
    length l = 21%nat.
Proof.
  edestruct (get_recent_sales_returns_every_sale Sample.crowded 100 "u1")
    as (_ & l & H & Hl & _).
  - reflexivity.
  - instantiate (1 := map (fun n =>
                             SaleItem.mk (Py.str_uuid (Py.uuid4 (Z.of_nat n))) "u1"
                               "Widget" 10 "2024-03-01T00:00:00Z" None MANUAL
                               (Py.isoformat Sample.now) (Py.isoformat Sample.now))
                          (seq 0 21)).
    vm_compute. reflexivity.
  - exists l. split; [exact H|]. exact Hl.
Defined.

(** ** Identifiers *)

Section Uuid.

Lemma hexchar_inj (a b : Z) :
  (0 <= a < 16)%Z -> (0 <= b < 16)%Z -> Py.hexchar a = Py.hexchar b -> a = b.
Proof.
  intros Ha Hb H. apply (f_equal nat_of_ascii) in H. unfold Py.hexchar in H.
  destruct (Z.ltb_spec a 10), (Z.ltb_spec b 10);
    rewrite !nat_ascii_embedding in H by lia; lia.
Qed.

Lemma hex_length (k : nat) (n : Z) (acc : string) :
  String.length (Py.hex k n acc) = (k + String.length acc)%nat.
Proof.
  revert n acc. induction k as [|k IH]; intros n acc; simpl; [reflexivity|].
  rewrite IH. simpl. lia.
Qed.

Lemma hex_inj (k : nat) (n m : Z) (acc acc' : string) :
  String.length acc = String.length acc' ->
  Py.hex k n acc = Py.hex k m acc' ->
  (n mod 16 ^ Z.of_nat k = m mod 16 ^ Z.of_nat k)%Z /\ acc = acc'.
Proof.
  revert n m acc acc'. induction k as [|k IH]; intros n m acc acc' Hl H.
  - simpl in H. split; [now rewrite !Z.mod_1_r | exact H].
  - cbn [Py.hex] in H. apply IH in H; [|simpl; now rewrite Hl].
    destruct H as [Hd Hs]. injection Hs as Hc Hs.
    apply hexchar_inj in Hc; try (apply Z.mod_pos_bound; lia).
    split; [|exact Hs].
    rewrite Nat2Z.inj_succ, Z.pow_succ_r by lia.
    rewrite !Z.rem_mul_r by lia. now rewrite Hc, Hd.
Qed.

Lemma dashed_inj (s t : string) :
  String.length s = 32%nat -> String.length t = 32%nat ->
  Py.dashed s = Py.dashed t -> s = t.
Proof.
  intros Hs Ht.
  do 33 (destruct s as [|? s]; try discriminate Hs).
  do 33 (destruct t as [|? t]; try discriminate Ht).
  unfold Py.dashed. cbn. intros H. injection H. intros. subst. reflexivity.
Qed.

Lemma dashed_length (s : string) :
  String.length s = 32%nat -> String.length (Py.dashed s) = 36%nat.
Proof.
  intros Hs.
  do 33 (destruct s as [|? s]; try discriminate Hs).
  reflexivity.
Qed.

Lemma str_uuid_length (u : Z) : String.length (Py.str_uuid u) = 36%nat.
Proof. apply dashed_length. now rewrite hex_length. Qed.

Lemma high_bits_small (a n : Z) :
  (0 <= a < 2 ^ 128)%Z -> (128 <= n)%Z -> Z.testbit a n = false.
Proof.
  intros Ha Hn. rewrite <- (Z.mod_small a (2 ^ 128)) by exact Ha.
  apply Z.mod_pow2_bits_high. lia.
Qed.

(** The sixteen random bytes make a 128-bit integer, and so does the
    UUID built from them. *)
Lemma uuid4_range (r : Z) :
  (0 <= r < 2 ^ 128)%Z -> (0 <= Py.uuid4 r < 2 ^ 128)%Z.
Proof.
  intros Hr.
  assert (E : Py.uuid4 r = (Py.uuid4 r mod 2 ^ 128)%Z).
  { apply Z.bits_inj'. intros n Hn.
    destruct (Z.ltb_spec n 128).
    - now rewrite Z.mod_pow2_bits_low.
    - rewrite Z.mod_pow2_bits_high by lia.
      unfold Py.uuid4. cbv zeta.
      rewrite !Z.lor_spec, !Z.land_spec, !Z.lor_spec, !Z.land_spec.
      rewrite (high_bits_small r n Hr) by lia.
      rewrite (high_bits_small (Z.shiftl 0x8000 48) n) by (cbn; lia).
      rewrite (high_bits_small (Z.shiftl 4 76) n) by (cbn; lia).
      reflexivity. }
  rewrite E. apply Z.mod_pos_bound. lia.
Qed.

Lemma str_uuid_inj (a b : Z) :
  (0 <= a < 2 ^ 128)%Z -> (0 <= b < 2 ^ 128)%Z ->
  Py.str_uuid a = Py.str_uuid b -> a = b.
Proof.
  intros Ha Hb H. unfold Py.str_uuid in H.
  apply dashed_inj in H; try now rewrite hex_length.
  apply hex_inj in H as [H _]; [|reflexivity].
  change (16 ^ Z.of_nat 32)%Z with (2 ^ 128)%Z in H.
  now rewrite !Z.mod_small in H.
Qed.

End Uuid.

(** ** Create *)

Section Create.

Variables (svc : CosmosService.t) (now : Py.datetime) (urandom : Z)
          (u : string) (p : SaleCreate.t).

Let sale : SaleItem.t :=
  SaleItem.mk (Py.str_uuid (Py.uuid4 urandom)) u
    (SaleCreate.productName p) (SaleCreate.amount p) (SaleCreate.saleDate p)
    (SaleCreate.customerName p) (SaleCreate.platform p)
    (Py.isoformat now) (Py.isoformat now).

Lemma create_sale_offline :
  CosmosService.client svc = false -> SaleCreate.valid p = true ->
  CosmosService.create_sale svc now urandom u p = (Py.Ok sale, svc).
Proof.
  intros Hc Hv. unfold CosmosService.create_sale. rewrite Hc. cbn [negb].
  now rewrite new_sale_item_valid.
Qed.

Lemma create_sale_online :
  CosmosService.client svc = true -> SaleCreate.valid p = true ->
  existsb (Cosmos.has_key u (SaleItem.id sale)) (CosmosService.container svc)
  = false ->
  CosmosService.create_sale svc now urandom u p
  = (Py.Ok sale,
     CosmosService.with_container svc
       (CosmosService.container svc ++ [SaleItem.model_dump sale])%list).
Proof.
  intros Hc Hv He. unfold CosmosService.create_sale. rewrite Hc. cbn [negb].
  rewrite new_sale_item_valid by exact Hv. fold sale.
  unfold Cosmos.create_item.
  change (SaleDict.userId (SaleItem.model_dump sale)) with u.
  change (SaleDict.id (SaleItem.model_dump sale)) with (SaleItem.id sale).
  rewrite He. cbn [Py.bind].
  pose proof (new_sale_item_valid (SaleItem.id sale) u (Py.isoformat now) p Hv)
    as V.
  unfold CosmosService.new_sale_item in V.
  change (SaleItem.validate (SaleItem.model_dump sale) = Py.Ok sale) in V.
  now rewrite V.
Qed.

Lemma create_sale_Ok_inv (s : SaleItem.t) (svc' : CosmosService.t) :
  CosmosService.create_sale svc now urandom u p = (Py.Ok s, svc') ->
  s = sale /\
  (CosmosService.client svc = false -> svc' = svc) /\
  (CosmosService.client svc = true ->
   existsb (Cosmos.has_key u (SaleItem.id sale)) (CosmosService.container svc)
   = false /\
   svc' = CosmosService.with_container svc
            (CosmosService.container svc ++ [SaleItem.model_dump sale])%list).
Proof.
  unfold CosmosService.create_sale.
  destruct (CosmosService.client svc); cbn [negb].
  - destruct (CosmosService.new_sale_item _ u p _) as [s0|e] eqn:N;
      [|discriminate].
    pose proof N as V. apply new_sale_item_Ok in N. fold sale in N. subst s0.
    unfold CosmosService.new_sale_item in V.
    change (SaleItem.validate (SaleItem.model_dump sale) = Py.Ok sale) in V.
    unfold Cosmos.create_item.
    change (SaleDict.userId (SaleItem.model_dump sale)) with u.
    change (SaleDict.id (SaleItem.model_dump sale)) with (SaleItem.id sale).
    destruct (existsb _ _); [discriminate|].
    cbn [Py.bind]. rewrite V. cbn. intros [= <- <-].
    split; [reflexivity|]. split; [discriminate | auto].
  - intros [= N <-]. apply new_sale_item_Ok in N.
    split; [exact N|]. split; [reflexivity | discriminate].
Qed.

End Create.

Lemma gt0_lt (q : Q) : gt0 q = true -> 0 < q.
Proof.
  unfold gt0. intros H. apply negb_true_iff in H.
  apply Qnot_le_lt. intros L. apply Qle_bool_iff in L. congruence.
Qed.



(* ================================================================= *)
(** * Further properties *)

(** ** The accessors of [swa_auth.py] *)

(** X1.  [is_authenticated] answers false when the header is missing or
    empty, when a decoder raises [ValueError], and when the payload is a
    dict with a falsy [userId]; it answers true for a dict with a truthy
    [userId].  On a payload that is not a dict it does not answer: the
    [AttributeError] passes through its [except HTTPException]. *)
Theorem is_authenticated_cases
  (b64decode : string -> Py.result string)
  (json_loads : string -> Py.result Json.json)
  (request : SwaAuth.Request) :
  let authenticated := SwaAuth.is_authenticated b64decode json_loads request in
  let header := SwaAuth.headers_get "x-ms-client-principal" request in
  (header = None \/ header = Some EmptyString -> authenticated = Py.Ok false) /\
  (forall h, header = Some h -> h <> EmptyString ->
     (forall msg, b64decode h = Py.Raise (Py.ValueError msg) ->
                  authenticated = Py.Ok false) /\
     (forall decoded, b64decode h = Py.Ok decoded ->
        (forall msg, json_loads decoded = Py.Raise (Py.ValueError msg) ->
                     authenticated = Py.Ok false) /\
        (forall payload, json_loads decoded = Py.Ok payload ->
           authenticated =
           match payload with
           | Json.JObj l =>
               Py.Ok (Json.truthy (match Json.lookup "userId" l with
                                   | Some v => v
                                   | None => Json.JNull
                                   end))
           | _ => Py.Raise (Py.AttributeError "object has no attribute 'get'")
           end))).
Proof.
  cbv zeta. unfold SwaAuth.is_authenticated. split; [|intros h Hh Hne; split].
  - intros H. now rewrite (get_current_user_no_header _ _ _ H).
  - intros msg Hd.
    now rewrite (get_current_user_bad_base64 _ _ _ _ _ Hh Hne Hd).
  - intros decoded Hd. split.
    + intros msg Hj.
      now rewrite (get_current_user_bad_json _ _ _ _ _ _ Hh Hne Hd Hj).
    + intros payload Hj.
      destruct payload as [| | | | |l];
        try (rewrite (get_current_user_not_object _ _ _ _ _ _ Hh Hne Hd Hj)
               by discriminate; reflexivity).
      pose proof (get_current_user_object _ _ _ _ _ _ Hh Hne Hd Hj) as E.
      cbv zeta in E. rewrite E.
      destruct (Json.truthy _); reflexivity.
Qed.

Lemma is_authenticated_cases_witness :
  SwaAuth.is_authenticated Base64.b64decode Json.loads
    [("x-ms-client-principal", "W10=")]
  = Py.Raise (Py.AttributeError "object has no attribute 'get'") /\
  SwaAuth.is_authenticated Base64.b64decode Json.loads
    [("x-ms-client-principal", "eyJ1c2VySWQiOiAidTEifQ==")]
  = Py.Ok true /\
  SwaAuth.is_authenticated Base64.b64decode Json.loads [] = Py.Ok false.
Proof.
  split; [|split].
  - destruct (is_authenticated_cases Base64.b64decode Json.loads
                [("x-ms-client-principal", "W10=")]) as [_ H].
    destruct (H "W10=" eq_refl) as [_ H1]; [discriminate|].
    destruct (H1 "[]" eq_refl) as [_ H2].
    exact (H2 (Json.JArr []) eq_refl).
  - destruct (is_authenticated_cases Base64.b64decode Json.loads
                [("x-ms-client-principal", "eyJ1c2VySWQiOiAidTEifQ==")])
      as [_ H].
    destruct (H "eyJ1c2VySWQiOiAidTEifQ==" eq_refl) as [_ H1]; [discriminate|].
    edestruct H1 as [_ H2]; [reflexivity|].
    exact (H2 (Json.JObj [("userId", Json.JStr "u1")]) eq_refl).
  - destruct (is_authenticated_cases Base64.b64decode Json.loads []) as [H _].
    apply H. now left.
Defined.

(** X2.  For a dict payload with a truthy [userId], [get_user_id]
    returns that [userId] and [get_user_claims] returns the payload's
    [claims] as it is (also when it is null), and the empty list only
    when the key is absent; with a falsy [userId] both raise the 401 of
    [get_current_user]. *)
Theorem get_user_id_and_claims
  (b64decode : string -> Py.result string)
  (json_loads : string -> Py.result Json.json)
  (request : SwaAuth.Request) (header decoded : string)
  (l : list (string * Json.json)) :
  SwaAuth.headers_get "x-ms-client-principal" request = Some header ->
  header <> EmptyString ->
  b64decode header = Py.Ok decoded ->
  json_loads decoded = Py.Ok (Json.JObj l) ->
  let uid := match Json.lookup "userId" l with
             | Some v => v | None => Json.JNull end in
  let unauthenticated {A} : Py.result A :=
    Py.Raise (Py.HTTPException 401 "Invalid authentication. User ID not found.") in
  (Json.truthy uid = true ->
   SwaAuth.get_user_id b64decode json_loads request = Py.Ok uid /\
   SwaAuth.get_user_claims b64decode json_loads request
   = Py.Ok (match Json.lookup "claims" l with
            | Some v => v
            | None => Json.JArr []
            end)) /\
  (Json.truthy uid = false ->
   SwaAuth.get_user_id b64decode json_loads request = unauthenticated /\
   SwaAuth.get_user_claims b64decode json_loads request = unauthenticated).
Proof.
  intros Hh Hne Hd Hj. cbv zeta.
  pose proof (get_current_user_object _ _ _ _ _ _ Hh Hne Hd Hj) as E.
  cbv zeta in E. unfold SwaAuth.get_user_id, SwaAuth.get_user_claims.
  rewrite E. split; intros ->; split; reflexivity.
Qed.

Lemma get_user_id_and_claims_witness :
  SwaAuth.get_user_claims Base64.b64decode Json.loads
    [("x-ms-client-principal", "eyJ1c2VySWQiOiAidTEiLCAiY2xhaW1zIjogbnVsbH0=")]
  = Py.Ok Json.JNull /\
  SwaAuth.get_user_claims Base64.b64decode Json.loads
    [("x-ms-client-principal", "eyJ1c2VySWQiOiAidTEifQ==")]
  = Py.Ok (Json.JArr []).
Proof.
  split.
  - edestruct (get_user_id_and_claims Base64.b64decode Json.loads
                 [("x-ms-client-principal",
                   "eyJ1c2VySWQiOiAidTEiLCAiY2xhaW1zIjogbnVsbH0=")]
                 "eyJ1c2VySWQiOiAidTEiLCAiY2xhaW1zIjogbnVsbH0=")
      as [H _]; [reflexivity | discriminate | reflexivity | reflexivity |].
    apply H. reflexivity.
  - edestruct (get_user_id_and_claims Base64.b64decode Json.loads
                 [("x-ms-client-principal", "eyJ1c2VySWQiOiAidTEifQ==")]
                 "eyJ1c2VySWQiOiAidTEifQ==")
      as [H _]; [reflexivity | discriminate | reflexivity | reflexivity |].
    apply H. reflexivity.
Defined.

(** ** Keys stay unique *)

Section Keys.

Lemma in_keys (pk i : string) (c : Cosmos.Container) :
  In (pk, i) (map Cosmos.key c) <-> existsb (Cosmos.has_key pk i) c = true.
Proof.
  rewrite in_map_iff, existsb_exists. split; intros (d & H1 & H2); exists d.
  - split; [exact H2|]. apply has_key_true.
    unfold Cosmos.key in H1. now injection H1.
  - apply has_key_true in H2 as [<- <-]. now split.
Qed.

Lemma wf_create (body : SaleDict.t) (c : Cosmos.Container) :
  Cosmos.wf c -> Cosmos.wf (snd (Cosmos.create_item body c)).
Proof.
  unfold Cosmos.wf, Cosmos.create_item. intros W.
  destruct (existsb _ c) eqn:E; simpl; [exact W|].
  rewrite map_app. simpl. apply NoDup_app; [exact W | | ].
  - constructor; [intros [] | constructor].
  - intros k Hk [<-|[]]. apply in_keys in Hk. congruence.
Qed.

Lemma keys_replace (item : string) (body : SaleDict.t) (c : Cosmos.Container) :
  SaleDict.id body = item ->
  map Cosmos.key (snd (Cosmos.replace_item item body c)) = map Cosmos.key c.
Proof.
  intros Hi. unfold Cosmos.replace_item.
  destruct (existsb _ c); simpl; [|reflexivity].
  rewrite map_map. apply map_ext_in. intros d _.
  destruct (Cosmos.has_key _ item d) eqn:K; [|reflexivity].
  apply has_key_true in K as [K1 K2]. unfold Cosmos.key. congruence.
Qed.

Lemma wf_delete (item pk : string) (c : Cosmos.Container) :
  Cosmos.wf c -> Cosmos.wf (snd (Cosmos.delete_item item pk c)).
Proof.
  unfold Cosmos.wf, Cosmos.delete_item. intros W.
  destruct (existsb _ c); simpl; [|exact W].
  induction c as [|d c IH]; simpl; [constructor|].
  inversion W as [|k ks Hk Hks]; subst.
  destruct (negb _); simpl; [|now apply IH].
  constructor; [|now apply IH].
  intros Hin. apply Hk. apply in_map_iff in Hin as (x & Hx & Hf).
  apply filter_In in Hf as [Hf _]. apply in_map_iff. eauto.
Qed.

(** The container a service call leaves behind. *)
Lemma create_sale_container (svc : CosmosService.t) (now : Py.datetime)
      (urandom : Z) (u : string) (p : SaleCreate.t) :
  CosmosService.container (snd (CosmosService.create_sale svc now urandom u p))
  = CosmosService.container svc \/
  exists s,
    CosmosService.new_sale_item (Py.str_uuid (Py.uuid4 urandom)) u p
      (Py.isoformat now) = Py.Ok s /\
    CosmosService.container (snd (CosmosService.create_sale svc now urandom u p))
    = snd (Cosmos.create_item (SaleItem.model_dump s)
             (CosmosService.container svc)).
Proof.
  unfold CosmosService.create_sale.
  destruct (CosmosService.client svc); cbn [negb]; [|now left].
  destruct (CosmosService.new_sale_item _ u p _) as [s|e]; [|now left].
  right. exists s. split; [reflexivity|].
  now destruct (Cosmos.create_item _ _).
Qed.

Lemma update_sale_container (svc : CosmosService.t) (now : Py.datetime)
      (u i : string) (upd : SaleUpdate.t) :
  CosmosService.container (snd (CosmosService.update_sale svc now u i upd))
  = CosmosService.container svc \/
  exists d existing,
    Cosmos.read_item i u (CosmosService.container svc) = Py.Ok d /\
    SaleItem.validate d = Py.Ok existing /\
    CosmosService.container (snd (CosmosService.update_sale svc now u i upd))
    = snd (Cosmos.replace_item i
             (CosmosService.updated_data existing upd (Py.isoformat now))
             (CosmosService.container svc)).
Proof.
  unfold CosmosService.update_sale.
  destruct (CosmosService.client svc); cbn [negb]; [|now left].
  destruct (CosmosService.get_sale svc u i) as [[e|]|x] eqn:G;
    [|now left|now left].
  apply get_sale_Some_inv in G as (_ & d & Hr & Hv).
  right. exists d, e. split; [exact Hr|]. split; [exact Hv|].
  now destruct (Cosmos.replace_item _ _ _).
Qed.

Lemma delete_sale_container (svc : CosmosService.t) (u i : string) :
  CosmosService.container (snd (CosmosService.delete_sale svc u i))
  = CosmosService.container svc \/
  CosmosService.container (snd (CosmosService.delete_sale svc u i))
  = snd (Cosmos.delete_item i u (CosmosService.container svc)).
Proof.
  unfold CosmosService.delete_sale.
  destruct (CosmosService.client svc); cbn [negb]; [|now left].
  right. now destruct (Cosmos.delete_item _ _ _).
Qed.

(** The container a route leaves behind is the one its service call
    leaves behind. *)
Lemma route_container (r : Main.Route) (u : string) (svc : CosmosService.t) :
  CosmosService.container (snd (Main.route r u svc)) =
  match r with
  | Main.POST_sales now urandom p =>
      CosmosService.container
        (snd (CosmosService.create_sale svc now urandom u p))
  | Main.PUT_sale now i upd =>
      CosmosService.container (snd (CosmosService.update_sale svc now u i upd))
  | Main.DELETE_sale i =>
      CosmosService.container (snd (CosmosService.delete_sale svc u i))
  | _ => CosmosService.container svc
  end.
Proof.
  destruct r; simpl; try reflexivity.
  - unfold SalesApi.create_sale.
    now destruct (CosmosService.create_sale _ _ _ _ _).
  - unfold SalesApi.update_sale.
    now destruct (CosmosService.update_sale _ _ _ _ _).
  - unfold SalesApi.delete_sale.
    now destruct (CosmosService.delete_sale _ _ _).
Qed.

End Keys.

(** X3.  No route, whoever calls it and whatever it answers, makes the
    container hold two documents with the same partition key and id. *)
Theorem routes_keep_keys_unique
  (r : Main.Route) (u : string) (svc : CosmosService.t) :
  Cosmos.wf (CosmosService.container svc) ->
  Cosmos.wf (CosmosService.container (snd (Main.route r u svc))).
Proof.
  intros W. rewrite route_container. destruct r; try exact W.
  - destruct (create_sale_container svc now urandom u sale_data)
      as [->|(s & _ & ->)]; [exact W | now apply wf_create].
  - destruct (update_sale_container svc now u sale_id update_data)
      as [->|(d & e & Hr & Hv & ->)]; [exact W|].
    unfold Cosmos.wf. rewrite keys_replace; [exact W|].
    apply read_item_Ok in Hr as (_ & _ & Hi).
    apply validate_userId in Hv as [_ Hv]. simpl. congruence.
  - destruct (delete_sale_container svc u sale_id) as [->| ->];
      [exact W | now apply wf_delete].
Qed.

Lemma routes_keep_keys_unique_witness :
  Cosmos.wf
    (CosmosService.container
       (snd (Main.route (Main.POST_sales Sample.now 7 Sample.widget) "u1"
               Sample.online))).
Proof.
  apply routes_keep_keys_unique.
  unfold Cosmos.wf. simpl.
  constructor; [intros [H|[]]; discriminate H|].
  constructor; [intros []|constructor].
Defined.

(** ** Create, then read *)

Lemma find_app_last (f : SaleDict.t -> bool) (c : Cosmos.Container)
      (x : SaleDict.t) :
  existsb f c = false -> f x = true -> find f (c ++ [x])%list = Some x.
Proof.
  intros E Hx. induction c as [|d c IH]; simpl in *.
  - now rewrite Hx.
  - apply orb_false_iff in E as [-> E]. now apply IH.
Qed.

(** X4.  Round trip: with a client, a sale created from a valid payload
    under an id the tenant does not hold yet is what get-by-id returns
    for that tenant and id right after. *)
Theorem create_then_get
  (svc : CosmosService.t) (now : Py.datetime) (urandom : Z)
  (u : string) (p : SaleCreate.t) :
  CosmosService.client svc = true ->
  SaleCreate.valid p = true ->
  existsb (Cosmos.has_key u (Py.str_uuid (Py.uuid4 urandom)))
          (CosmosService.container svc) = false ->
  exists s svc',
    SalesApi.create_sale svc now urandom p u = (Py.Ok s, svc') /\
    CosmosService.get_sale svc' u (SaleItem.id s) = Py.Ok (Some s) /\
    SalesApi.get_sale svc' (SaleItem.id s) u = Py.Ok s /\
    In (SaleItem.model_dump s) (CosmosService.container svc') /\
    length (CosmosService.container svc')
    = S (length (CosmosService.container svc)).
Proof.
  intros Hc Hv He.
  pose proof (create_sale_online svc now urandom u p Hc Hv He) as C.
  cbv zeta in C.
  set (s := SaleItem.mk (Py.str_uuid (Py.uuid4 urandom)) u
              (SaleCreate.productName p) (SaleCreate.amount p)
              (SaleCreate.saleDate p) (SaleCreate.customerName p)
              (SaleCreate.platform p) (Py.isoformat now) (Py.isoformat now))
    in *.
  set (svc' := CosmosService.with_container svc
                 (CosmosService.container svc ++ [SaleItem.model_dump s])%list)
    in *.
  assert (G : CosmosService.get_sale svc' u (SaleItem.id s) = Py.Ok (Some s)).
  { apply (get_sale_found svc' u (SaleItem.id s) (SaleItem.model_dump s)).
    - exact Hc.
    - unfold Cosmos.read_item. simpl.
      rewrite find_app_last; [reflexivity | exact He |].
      apply has_key_true. now split.
    - exact (new_sale_item_valid (SaleItem.id s) u (Py.isoformat now) p Hv). }
  exists s, svc'. split; [|split; [exact G|split; [|split]]].
  - unfold SalesApi.create_sale. now rewrite C.
  - unfold SalesApi.get_sale. now rewrite G.
  - simpl. apply in_or_app. right. now left.
  - simpl. rewrite length_app. simpl. lia.
Qed.

Lemma create_then_get_witness :
  exists s svc',
    SalesApi.create_sale Sample.online Sample.now 9 Sample.widget "u1"
    = (Py.Ok s, svc') /\
    SalesApi.get_sale svc' (SaleItem.id s) "u1" = Py.Ok s.
Proof.
  destruct (create_then_get Sample.online Sample.now 9 "u1" Sample.widget)
    as (s & svc' & H1 & _ & H2 & _); try reflexivity.
  exists s, svc'. now split.
Defined.

(** X5.  Conflict: with a client, creating under an id the tenant
    already holds stores nothing and raises [ValueError], which the
    handler answers 400 "Sale with this ID already exists". *)
Theorem create_sale_conflict
  (svc : CosmosService.t) (now : Py.datetime) (urandom : Z)
  (u : string) (p : SaleCreate.t) :
  CosmosService.client svc = true ->
  SaleCreate.valid p = true ->
  existsb (Cosmos.has_key u (Py.str_uuid (Py.uuid4 urandom)))
          (CosmosService.container svc) = true ->
  CosmosService.create_sale svc now urandom u p
  = (Py.Raise (Py.ValueError "Sale with this ID already exists"), svc) /\
  SalesApi.create_sale svc now urandom p u
  = (Py.Raise (Py.HTTPException 400 "Sale with this ID already exists"), svc) /\
  Main.response_status 201 (fst (SalesApi.create_sale svc now urandom p u))
  = 400%nat.
Proof.
  intros Hc Hv He.
  assert (C : CosmosService.create_sale svc now urandom u p
              = (Py.Raise (Py.ValueError "Sale with this ID already exists"),
                 svc)).
  { unfold CosmosService.create_sale. rewrite Hc. cbn [negb].
    rewrite new_sale_item_valid by exact Hv.
    unfold Cosmos.create_item.
    cbn [SaleItem.model_dump SaleDict.userId SaleDict.id SaleItem.id
         SaleItem.userId].
    rewrite He. cbn. now rewrite with_container_same. }
  split; [exact C|]. unfold SalesApi.create_sale. rewrite C. now split.
Qed.

Lemma create_sale_conflict_witness :
  SalesApi.create_sale Sample.online Sample.now 7 Sample.widget "u1"
  = (Py.Raise (Py.HTTPException 400 "Sale with this ID already exists"),
     Sample.online).
Proof.
  destruct (create_sale_conflict Sample.online Sample.now 7 "u1" Sample.widget)
    as (_ & H & _); [reflexivity | reflexivity | reflexivity | exact H].
Defined.

(** ** Update, then read *)

Section UpdateFound.

Variables (svc : CosmosService.t) (now : Py.datetime) (u i : string)
          (upd : SaleUpdate.t) (d : SaleDict.t) (existing : SaleItem.t).
Hypothesis online : CosmosService.client svc = true.
Hypothesis stored :
  Cosmos.read_item i u (CosmosService.container svc) = Py.Ok d.
Hypothesis accepted : SaleItem.validate d = Py.Ok existing.

Let body := CosmosService.updated_data existing upd (Py.isoformat now).
Let svc' :=
  CosmosService.with_container svc
    (map (fun x => if Cosmos.has_key u i x then body else x)
         (CosmosService.container svc)).

Lemma updated_body_key : Cosmos.has_key u i body = true.
Proof.
  apply has_key_true.
  destruct (read_item_Ok _ _ _ _ stored) as (_ & Hu & Hi).
  destruct (validate_userId _ _ accepted) as [Hu' Hi'].
  subst body. simpl. split; congruence.
Qed.

Lemma update_sale_found :
  CosmosService.update_sale svc now u i upd
  = (match SaleItem.validate body with
     | Py.Ok s => Py.Ok (Some s)
     | Py.Raise _ =>
         Py.Raise (Py.RuntimeError
                     "Failed to update sale: validation error for SaleItem")
     end, svc').
Proof.
  pose proof updated_body_key as Kb.
  assert (Ku : SaleDict.userId body = u) by now apply has_key_true in Kb.
  destruct (read_item_Ok _ _ _ _ stored) as (Hin & Hu & Hi).
  assert (E : existsb (Cosmos.has_key u i) (CosmosService.container svc) = true).
  { apply existsb_exists. exists d. split; [exact Hin|]. now apply has_key_true. }
  unfold CosmosService.update_sale.
  rewrite online, (get_sale_found svc u i d existing online stored accepted).
  cbn [negb]. fold body. unfold Cosmos.replace_item. rewrite Ku, E.
  cbn [Py.bind Py.try_except2]. fold svc'.
  destruct (SaleItem.validate body) as [s|e] eqn:V; [reflexivity|].
  now rewrite (validate_Raise _ _ V).
Qed.

Lemma read_after_update :
  Cosmos.read_item i u (CosmosService.container svc') = Py.Ok body.
Proof.
  destruct (read_item_Ok _ _ _ _ stored) as (Hin & Hu & Hi).
  assert (E : existsb (Cosmos.has_key u i) (CosmosService.container svc) = true).
  { apply existsb_exists. exists d. split; [exact Hin|]. now apply has_key_true. }
  unfold Cosmos.read_item. simpl.
  now rewrite (find_replaced_same u i body updated_body_key _ E).
Qed.

End UpdateFound.

Lemma comprehension_validate_fails (l : list SaleDict.t) (x : SaleDict.t)
      (e : Py.exn) :
  In x l -> SaleItem.validate x = Py.Raise e ->
  Py.comprehension SaleItem.validate l
  = Py.Raise (Py.ValueError "validation error for SaleItem").
Proof.
  intros Hin Hx. induction l as [|y l IH]; [contradiction|]. simpl.
  destruct (SaleItem.validate y) as [s|e'] eqn:V.
  - destruct Hin as [->|Hin]; [congruence|]. now rewrite (IH Hin).
  - now rewrite (validate_Raise _ _ V).
Qed.

(** A valid update that sets no required field to null turns an
    accepted document into an accepted one. *)
Lemma updated_data_accepted (existing : SaleItem.t) (upd : SaleUpdate.t)
      (now : string) (d : SaleDict.t) :
  SaleItem.validate d = Py.Ok existing ->
  SaleUpdate.valid upd = true ->
  SaleUpdate.productName upd <> Some None ->
  SaleUpdate.amount upd <> Some None ->
  SaleUpdate.saleDate upd <> Some None ->
  SaleUpdate.platform upd <> Some None ->
  exists s, SaleItem.validate (CosmosService.updated_data existing upd now)
            = Py.Ok s.
Proof.
  intros Hv Hu N1 N2 N3 N4.
  destruct (validate_inv _ _ Hv) as (_ & V1 & V2 & V3).
  unfold CosmosService.updated_data, SaleItem.validate.
  destruct upd as [pn a sd cn pf]. unfold SaleUpdate.valid in Hu.
  cbn [SaleUpdate.productName SaleUpdate.amount SaleUpdate.saleDate
       SaleUpdate.customerName SaleUpdate.platform] in *.
  apply andb_true_iff in Hu as [Hu U3]. apply andb_true_iff in Hu as [U1 U2].
  destruct pn as [[pn|]|]; [| now elim N1 |];
    destruct a as [[a|]|]; try (now elim N2);
    destruct sd as [[sd|]|]; try (now elim N3);
    destruct pf as [[pf|]|]; try (now elim N4);
    destruct cn as [cn|];
    cbn [CosmosService.merge SaleItem.model_dump SaleDict.productName
         SaleDict.amount SaleDict.saleDate SaleDict.platform
         SaleDict.customerName SaleDict.id SaleDict.userId
         SaleDict.createdAt SaleDict.updatedAt opt_forall] in *;
    rewrite ?V1, ?V2, ?V3, ?U1, ?U2, ?U3; cbn [andb];
    eexists; reflexivity.
Qed.

(** X6.  Round trip: with a client, an update that is valid and sets no
    required field to null, applied to a stored sale, returns the
    updated sale, and get-by-id returns the same sale right after; its
    id, tenant and [createdAt] are those of the sale before, and its
    [updatedAt] is the current time. *)
Theorem update_then_get
  (svc : CosmosService.t) (now : Py.datetime) (u i : string)
  (upd : SaleUpdate.t) (d : SaleDict.t) (existing : SaleItem.t) :
  CosmosService.client svc = true ->
  Cosmos.read_item i u (CosmosService.container svc) = Py.Ok d ->
  SaleItem.validate d = Py.Ok existing ->
  SaleUpdate.valid upd = true ->
  SaleUpdate.productName upd <> Some None ->
  SaleUpdate.amount upd <> Some None ->
  SaleUpdate.saleDate upd <> Some None ->
  SaleUpdate.platform upd <> Some None ->
  exists s svc',
    SalesApi.update_sale svc now i upd u = (Py.Ok s, svc') /\
    CosmosService.get_sale svc' u i = Py.Ok (Some s) /\
    SalesApi.get_sale svc' i u = Py.Ok s /\
    SaleItem.id s = i /\ SaleItem.userId s = u /\
    SaleItem.createdAt s = SaleItem.createdAt existing /\
    SaleItem.updatedAt s = Py.isoformat now /\
    SaleItem.amount s =
      match SaleUpdate.amount upd with
      | Some (Some a) => a | _ => SaleItem.amount existing end /\
    SaleItem.productName s =
      match SaleUpdate.productName upd with
      | Some (Some x) => x | _ => SaleItem.productName existing end.
Proof.
  intros Hc Hr Hv Hu N1 N2 N3 N4.
  pose proof (update_sale_found svc now u i upd d existing Hc Hr Hv) as U.
  pose proof (read_after_update svc now u i upd d existing Hr Hv) as R.
  cbv zeta in U, R.
  destruct (read_item_Ok _ _ _ _ Hr) as (_ & Hdu & Hdi).
  destruct (validate_userId _ _ Hv) as [Hsu Hsi].
  set (body := CosmosService.updated_data existing upd (Py.isoformat now)) in *.
  destruct (updated_data_accepted existing upd (Py.isoformat now) d
              Hv Hu N1 N2 N3 N4) as (s & Vs).
  fold body in Vs.
  assert (Ds : SaleItem.model_dump s = body) by now apply validate_inv in Vs.
  rewrite Vs in U.
  eexists s, _. split; [|split; [|split]].
  - unfold SalesApi.update_sale. rewrite U. reflexivity.
  - eapply get_sale_found; [exact Hc | exact R | exact Vs].
  - unfold SalesApi.get_sale.
    erewrite get_sale_found; [reflexivity | exact Hc | exact R | exact Vs].
  - apply (f_equal SaleDict.id) in Ds as D1.
    apply (f_equal SaleDict.userId) in Ds as D2.
    apply (f_equal SaleDict.createdAt) in Ds as D3.
    apply (f_equal SaleDict.updatedAt) in Ds as D4.
    apply (f_equal SaleDict.amount) in Ds as D5.
    apply (f_equal SaleDict.productName) in Ds as D6.
    subst body. simpl in D1, D2, D3, D4, D5, D6.
    repeat split; try congruence.
    + destruct (SaleUpdate.amount upd) as [[a|]|]; simpl in D5;
        [congruence | now elim N2 | congruence].
    + destruct (SaleUpdate.productName upd) as [[x|]|]; simpl in D6;
        [congruence | now elim N1 | congruence].
Qed.

Lemma update_then_get_witness :
  exists s svc',
    SalesApi.update_sale Sample.online Sample.later
      (SaleDict.id Sample.sale_u1) Sample.reprice "u1" = (Py.Ok s, svc') /\
    SalesApi.get_sale svc' (SaleDict.id Sample.sale_u1) "u1" = Py.Ok s /\
    SaleItem.amount s = 12%Q.
Proof.
  edestruct (update_then_get Sample.online Sample.later "u1"
               (SaleDict.id Sample.sale_u1) Sample.reprice Sample.sale_u1)
    as (s & svc' & H1 & _ & H2 & _ & _ & _ & _ & H3 & _);
    [reflexivity | reflexivity | reflexivity | reflexivity
     | discriminate | discriminate | discriminate | discriminate |].
  exists s, svc'. repeat split; assumption.
Defined.

(** X7.  An update may set a required field to null: [SaleUpdate]
    accepts it and [exclude_unset] keeps it.  With a client, such an
    update of a stored sale writes the document first and fails
    afterwards (500); from then on get-by-id on that sale and the list
    of the tenant's sales fail as well, since the stored document is no
    longer a [SaleItem]. *)
Theorem update_with_null_corrupts
  (svc : CosmosService.t) (now : Py.datetime) (u i : string)
  (upd : SaleUpdate.t) (d : SaleDict.t) (existing : SaleItem.t) :
  CosmosService.client svc = true ->
  Cosmos.read_item i u (CosmosService.container svc) = Py.Ok d ->
  SaleItem.validate d = Py.Ok existing ->
  SaleUpdate.productName upd = Some None \/ SaleUpdate.amount upd = Some None \/
  SaleUpdate.saleDate upd = Some None \/ SaleUpdate.platform upd = Some None ->
  exists d' svc',
    CosmosService.update_sale svc now u i upd
    = (Py.Raise (Py.RuntimeError
                   "Failed to update sale: validation error for SaleItem"),
       svc') /\
    Main.response_status 200 (fst (SalesApi.update_sale svc now i upd u))
    = 500%nat /\
    Cosmos.read_item i u (CosmosService.container svc') = Py.Ok d' /\
    d' <> d /\
    CosmosService.get_sale svc' u i
    = Py.Raise (Py.RuntimeError
                  "Failed to get sale: validation error for SaleItem") /\
    SalesApi.get_sales svc' u
    = Py.Raise (Py.HTTPException 500
        "Failed to retrieve sales: Failed to get sales: validation error for SaleItem").
Proof.
  intros Hc Hr Hv Hnull.
  pose proof (update_sale_found svc now u i upd d existing Hc Hr Hv) as U.
  pose proof (read_after_update svc now u i upd d existing Hr Hv) as R.
  cbv zeta in U, R.
  destruct (validate_inv _ _ Hv) as (Hd & _).
  set (body := CosmosService.updated_data existing upd (Py.isoformat now)) in *.
  assert (V : SaleItem.validate body
              = Py.Raise (Py.ValueError "validation error for SaleItem")).
  { subst body. unfold CosmosService.updated_data, SaleItem.validate.
    destruct Hnull as [H|[H|[H|H]]]; rewrite H; cbn;
      repeat match goal with
             | |- context [CosmosService.merge ?a ?b] =>
                 destruct (CosmosService.merge a b)
             end; reflexivity. }
  rewrite V in U.
  assert (Nd : body <> d).
  { intros E. rewrite E in V. congruence. }
  eexists body, _. split; [exact U|]. split; [|split; [exact R|split; [exact Nd|split]]].
  - unfold SalesApi.update_sale. rewrite U. reflexivity.
  - unfold CosmosService.get_sale. cbn [CosmosService.client
      CosmosService.with_container negb].
    rewrite Hc. cbn [negb]. rewrite R. cbn [Py.bind]. rewrite V. reflexivity.
  - unfold SalesApi.get_sales, CosmosService.get_sales_by_user.
    cbn [CosmosService.client CosmosService.with_container]. rewrite Hc.
    cbn [negb]. rewrite list_query_items_all.
    erewrite comprehension_validate_fails; [reflexivity | | exact V].
    apply (Permutation_in _ (Permutation_sym (order_by_saleDate_desc_perm _))).
    apply where_userId_In. apply read_item_Ok in R. tauto.
Qed.

Lemma update_with_null_corrupts_witness :
  exists svc',
    CosmosService.update_sale Sample.online Sample.later "u1"
      (SaleDict.id Sample.sale_u1)
      (SaleUpdate.mk None (Some None) None None None)
    = (Py.Raise (Py.RuntimeError
                   "Failed to update sale: validation error for SaleItem"),
       svc') /\
    CosmosService.get_sale svc' "u1" (SaleDict.id Sample.sale_u1)
    = Py.Raise (Py.RuntimeError
                  "Failed to get sale: validation error for SaleItem").
Proof.
  edestruct (update_with_null_corrupts Sample.online Sample.later "u1"
               (SaleDict.id Sample.sale_u1)
               (SaleUpdate.mk None (Some None) None None None) Sample.sale_u1)
    as (d' & svc' & H1 & _ & _ & _ & H2 & _);
    [reflexivity | reflexivity | reflexivity | right; left; reflexivity |].
  exists svc'. split; assumption.
Defined.

(** ** Listing *)

Section Listing.

Let geb (a b : SaleDict.t) : Prop := Cosmos.saleDate_geb a b = true.

Lemma saleDate_geb_total (a b : SaleDict.t) :
  Cosmos.saleDate_geb a b = false -> Cosmos.saleDate_geb b a = true.
Proof.
  unfold Cosmos.saleDate_geb.
  destruct (SaleDict.saleDate a) as [x|], (SaleDict.saleDate b) as [y|];
    try (reflexivity || discriminate).
  intros H. destruct (String.leb_total x y) as [T|T]; congruence.
Qed.

Lemma insert_desc_HdRel (x d : SaleDict.t) (l : list SaleDict.t) :
  HdRel geb x l -> geb x d -> HdRel geb x (Cosmos.insert_desc d l).
Proof.
  intros H Hd. destruct l as [|y l]; simpl; [now constructor|].
  inversion H; subst. destruct (Cosmos.saleDate_geb y d); now constructor.
Qed.

Lemma insert_desc_sorted (d : SaleDict.t) (l : list SaleDict.t) :
  Sorted geb l -> Sorted geb (Cosmos.insert_desc d l).
Proof.
  induction 1 as [|x l Hs IH Hh]; simpl.
  - repeat constructor.
  - destruct (Cosmos.saleDate_geb x d) eqn:G.
    + constructor; [exact IH | now apply insert_desc_HdRel].
    + constructor; [now constructor|].
      constructor. now apply saleDate_geb_total.
Qed.

Lemma order_by_saleDate_desc_sorted (l : list SaleDict.t) :
  Sorted geb (Cosmos.order_by_saleDate_desc l).
Proof.
  unfold Cosmos.order_by_saleDate_desc.
  assert (G : forall acc, Sorted geb acc ->
              Sorted geb (fold_left (fun acc d => Cosmos.insert_desc d acc) l acc)).
  { induction l as [|x l IH]; intros acc Ha; simpl; [exact Ha|].
    apply IH. now apply insert_desc_sorted. }
  apply G. constructor.
Qed.

Lemma sorted_model_dump (l : list SaleItem.t) :
  Sorted geb (map SaleItem.model_dump l) ->
  Sorted (fun a b => String.leb (SaleItem.saleDate b) (SaleItem.saleDate a) = true) l.
Proof.
  induction l as [|a l IH]; simpl; intros H; [constructor|].
  inversion H as [|? ? Hs Hh]; subst. constructor; [now apply IH|].
  destruct l as [|b l]; simpl in *; constructor.
  inversion Hh; subst. assumption.
Qed.

(** Documents that are all accepted are the dumps of the sales the
    comprehension returns. *)
Lemma comprehension_accepted (rows : list SaleDict.t) :
  (forall d, In d rows -> exists s, SaleItem.validate d = Py.Ok s) ->
  exists sales,
    Py.comprehension SaleItem.validate rows = Py.Ok sales /\
    map SaleItem.model_dump sales = rows.
Proof.
  induction rows as [|d rows IH]; intros H.
  - exists []. now split.
  - destruct (H d (or_introl eq_refl)) as (s & Hs).
    destruct IH as (sales & Hc & Hm); [intros x Hx; apply H; now right|].
    exists (s :: sales). simpl. rewrite Hs, Hc. split; [reflexivity|].
    simpl. rewrite Hm. now apply validate_inv in Hs as [-> _].
Qed.

End Listing.

(** X8.  With a client, for a tenant whose documents are all accepted
    by [SaleItem], the list handler returns every sale of the tenant, as
    many as there are (the limit of 100 only sizes the pages), ordered
    by [saleDate], latest first. *)
Theorem get_sales_sorted_and_complete (svc : CosmosService.t) (u : string) :
  CosmosService.client svc = true ->
  (forall d, In d (CosmosService.container svc) -> SaleDict.userId d = u ->
             exists s, SaleItem.validate d = Py.Ok s) ->
  exists l,
    SalesApi.get_sales svc u = Py.Ok l /\
    Permutation (map SaleItem.model_dump l)
                (Cosmos.where_userId u (CosmosService.container svc)) /\
    length l = length (Cosmos.where_userId u (CosmosService.container svc)) /\
    Sorted (fun a b =>
              String.leb (SaleItem.saleDate b) (SaleItem.saleDate a) = true) l.
Proof.
  intros Hc Hv.
  set (rows := Cosmos.order_by_saleDate_desc
                 (Cosmos.where_userId u (CosmosService.container svc))).
  assert (P : Permutation rows
                (Cosmos.where_userId u (CosmosService.container svc)))
    by apply order_by_saleDate_desc_perm.
  destruct (comprehension_accepted rows) as (l & Hl & Hm).
  { intros d Hd. apply (Permutation_in _ P) in Hd.
    apply where_userId_In in Hd as [Hin Hu]. now apply Hv. }
  exists l. split; [|split; [|split]].
  - unfold SalesApi.get_sales, CosmosService.get_sales_by_user.
    rewrite Hc. cbn [negb]. rewrite list_query_items_all. fold rows.
    now rewrite Hl.
  - now rewrite Hm.
  - rewrite <- (Permutation_length P), <- Hm. symmetry. apply length_map.
  - apply sorted_model_dump. rewrite Hm. apply order_by_saleDate_desc_sorted.
Qed.

Lemma get_sales_sorted_and_complete_witness :
  exists l,
    SalesApi.get_sales Sample.crowded "u1" = Py.Ok l /\ length l = 21%nat.
Proof.
  destruct (get_sales_sorted_and_complete Sample.crowded "u1")
    as (l & H1 & _ & H2 & _).
  - reflexivity.
  - intros d Hd _. simpl in Hd.
    repeat (destruct Hd as [<-|Hd]; [eexists; reflexivity|]). contradiction.
  - exists l. split; [exact H1 | exact H2].
Defined.

(** ** Accepted documents *)

Section Accepted.

Lemma valid_documents_In (c : Cosmos.Container) (d : SaleDict.t) :
  Cosmos.valid_documents c -> In d c -> exists s, SaleItem.validate d = Py.Ok s.
Proof. unfold Cosmos.valid_documents. rewrite Forall_forall. auto. Qed.

Lemma valid_create (s : SaleItem.t) (d : SaleDict.t) (c : Cosmos.Container) :
  SaleItem.validate d = Py.Ok s ->
  Cosmos.valid_documents c ->
  Cosmos.valid_documents (snd (Cosmos.create_item (SaleItem.model_dump s) c)).
Proof.
  intros Hs V. unfold Cosmos.create_item.
  destruct (existsb _ c); simpl; [exact V|].
  apply Forall_app. split; [exact V|]. constructor; [|constructor].
  exists s. now destruct (validate_inv _ _ Hs) as [-> _].
Qed.

Lemma valid_replace (i : string) (body : SaleDict.t) (c : Cosmos.Container) :
  (exists s, SaleItem.validate body = Py.Ok s) ->
  Cosmos.valid_documents c ->
  Cosmos.valid_documents (snd (Cosmos.replace_item i body c)).
Proof.
  intros Hb V. unfold Cosmos.replace_item.
  destruct (existsb _ c); simpl; [|exact V].
  unfold Cosmos.valid_documents in *. rewrite Forall_forall in *.
  intros x Hx. apply in_map_iff in Hx as (d & <- & Hd).
  destruct (Cosmos.has_key _ i d); auto.
Qed.

Lemma valid_delete (i pk : string) (c : Cosmos.Container) :
  Cosmos.valid_documents c ->
  Cosmos.valid_documents (snd (Cosmos.delete_item i pk c)).
Proof.
  intros V. unfold Cosmos.delete_item.
  destruct (existsb _ c); simpl; [|exact V].
  unfold Cosmos.valid_documents in *. rewrite Forall_forall in *.
  intros x Hx. apply filter_In in Hx as [Hx _]. auto.
Qed.

End Accepted.

Lemma find_some_has_key (item pk : string) (c : Cosmos.Container) :
  existsb (Cosmos.has_key pk item) c = true ->
  exists d, find (Cosmos.has_key pk item) c = Some d.
Proof.
  intros E. destruct (find _ c) as [d|] eqn:F; [eauto|].
  apply existsb_exists in E as (d & Hin & Hk).
  now rewrite (find_none _ _ F d Hin) in Hk.
Qed.

Lemma update_sale_accepted
      (svc : CosmosService.t) (now : Py.datetime) (u i : string)
      (upd : SaleUpdate.t) (d : SaleDict.t) (existing : SaleItem.t) :
  CosmosService.client svc = true ->
  Cosmos.read_item i u (CosmosService.container svc) = Py.Ok d ->
  SaleItem.validate d = Py.Ok existing ->
  SaleUpdate.valid upd = true ->
  SaleUpdate.productName upd <> Some None ->
  SaleUpdate.amount upd <> Some None ->
  SaleUpdate.saleDate upd <> Some None ->
  SaleUpdate.platform upd <> Some None ->
  exists s svc', SalesApi.update_sale svc now i upd u = (Py.Ok s, svc').
Proof.
  intros Hc Hr Hv H0 H1 H2 H3 H4.
  pose proof (update_sale_found svc now u i upd d existing Hc Hr Hv) as U.
  cbv zeta in U.
  destruct (updated_data_accepted existing upd (Py.isoformat now) d
              Hv H0 H1 H2 H3 H4) as (s & Vs).
  rewrite Vs in U. exists s. eexists.
  unfold SalesApi.update_sale. rewrite U. reflexivity.
Qed.

(** X9.  Every stored document stays one [SaleItem] accepts under every
    route, provided updates set no required field to null: creates
    store validated items only, deletes remove, and such an update
    writes an accepted document. *)
Theorem routes_keep_documents_valid
  (r : Main.Route) (u : string) (svc : CosmosService.t) :
  Cosmos.valid_documents (CosmosService.container svc) ->
  match r with
  | Main.PUT_sale _ _ upd =>
      (SaleUpdate.valid upd = true /\
       SaleUpdate.productName upd <> Some None /\
       SaleUpdate.amount upd <> Some None /\
       SaleUpdate.saleDate upd <> Some None /\
       SaleUpdate.platform upd <> Some None)
  | _ => True
  end ->
  Cosmos.valid_documents (CosmosService.container (snd (Main.route r u svc))).
Proof.
  intros V Hr. rewrite route_container. destruct r; try exact V.
  - destruct (create_sale_container svc now urandom u sale_data)
      as [->|(s & Hs & ->)]; [exact V|].
    unfold CosmosService.new_sale_item in Hs. now apply (valid_create s _ _ Hs).
  - destruct (update_sale_container svc now u sale_id update_data)
      as [->|(d & e & _ & Hv & ->)]; [exact V|].
    destruct Hr as (H0 & H1 & H2 & H3 & H4).
    apply valid_replace; [|exact V].
    now apply (updated_data_accepted e update_data _ d).
  - destruct (delete_sale_container svc u sale_id) as [->| ->];
      [exact V | now apply valid_delete].
Qed.

Lemma routes_keep_documents_valid_witness :
  Cosmos.valid_documents
    (CosmosService.container
       (snd (Main.route
               (Main.PUT_sale Sample.later (SaleDict.id Sample.sale_u1)
                  Sample.reprice) "u1" Sample.online))).
Proof.
  apply routes_keep_documents_valid.
  - repeat constructor; eexists; reflexivity.
  - repeat split; discriminate.
Defined.



(** ** More on the statistics *)

Section StatsBounds.

Lemma Qsum_nonneg (l : list Q) :
  Forall (fun a => 0 < a) l -> 0 <= Cosmos.Qsum l.
Proof.
  induction 1 as [|a l Ha _ IH]; simpl; [apply Qle_refl|].
  rewrite <- (Qplus_0_l 0). apply Qplus_le_compat; [now apply Qlt_le_weak | exact IH].
Qed.

Lemma Qsum_pos (a : Q) (l : list Q) :
  Forall (fun a => 0 < a) (a :: l) -> 0 < Cosmos.Qsum (a :: l).
Proof.
  intros H. inversion H as [|? ? Ha Hl]; subst. simpl.
  rewrite <- (Qplus_0_l 0). apply Qplus_lt_le_compat; [exact Ha|].
  now apply Qsum_nonneg.
Qed.

Lemma Qsum_filter_le (f : SaleItem.t -> bool) (sales : list SaleItem.t) :
  Forall (fun s => 0 < SaleItem.amount s) sales ->
  0 <= Cosmos.Qsum (map SaleItem.amount (filter f sales)) /\
  Cosmos.Qsum (map SaleItem.amount (filter f sales))
  <= Cosmos.Qsum (map SaleItem.amount sales).
Proof.
  induction 1 as [|s sales Hs _ [IH0 IH]]; simpl.
  - split; apply Qle_refl.
  - destruct (f s); simpl.
    + split.
      * rewrite <- (Qplus_0_l 0).
        apply Qplus_le_compat; [now apply Qlt_le_weak | exact IH0].
      * apply Qplus_le_compat; [apply Qle_refl | exact IH].
    + split; [exact IH0|].
      rewrite <- (Qplus_0_l (Cosmos.Qsum _)) at 1.
      apply Qplus_le_compat; [now apply Qlt_le_weak | exact IH].
Qed.

Lemma Qsum_app (l l' : list Q) :
  Cosmos.Qsum (l ++ l') == Cosmos.Qsum l + Cosmos.Qsum l'.
Proof.
  induction l as [|a l IH]; simpl.
  - now rewrite Qplus_0_l.
  - rewrite IH. apply Qplus_assoc.
Qed.

(** The accepted documents of a tenant are the dumps of sales with a
    positive amount. *)
Lemma accepted_rows (svc : CosmosService.t) (u : string) :
  (forall d, In d (CosmosService.container svc) -> SaleDict.userId d = u ->
             exists s, SaleItem.validate d = Py.Ok s) ->
  exists sales,
    Cosmos.where_userId u (CosmosService.container svc)
    = map SaleItem.model_dump sales /\
    Forall (fun s => 0 < SaleItem.amount s) sales.
Proof.
  intros H.
  assert (G : forall rows,
             (forall d, In d rows -> exists s, SaleItem.validate d = Py.Ok s) ->
             exists sales, rows = map SaleItem.model_dump sales /\
                           Forall (fun s => 0 < SaleItem.amount s) sales).
  { induction rows as [|d rows IH]; intros A.
    - exists []. split; [reflexivity | constructor].
    - destruct (A d (or_introl eq_refl)) as (s & Hs).
      destruct IH as (sales & -> & F); [intros x Hx; apply A; now right|].
      exists (s :: sales). apply validate_inv in Hs as (<- & _ & Hp & _).
      split; [reflexivity|]. constructor; [now apply gt0_lt | exact F]. }
  apply G. intros d Hd. apply where_userId_In in Hd as [Hd Hu]. now apply H.
Qed.

End StatsBounds.

(** X11.  With a client, for a tenant whose documents are all accepted,
    the statistics are ordered: the month's total lies between zero and
    the overall total, and as soon as there is an item the total and
    the average are positive. *)
Theorem dashboard_stats_bounds
  (svc : CosmosService.t) (now : Py.datetime) (u : string) :
  CosmosService.client svc = true ->
  (forall d, In d (CosmosService.container svc) -> SaleDict.userId d = u ->
             exists s, SaleItem.validate d = Py.Ok s) ->
  exists st,
    DashboardApi.get_dashboard_stats svc now u = Py.Ok st /\
    0 <= DashboardStats.thisMonth st /\
    DashboardStats.thisMonth st <= DashboardStats.totalSales st /\
    (0 <= DashboardStats.totalItems st)%Z /\
    ((0 < DashboardStats.totalItems st)%Z ->
     0 < DashboardStats.totalSales st /\ 0 < DashboardStats.avgPrice st).
Proof.
  intros Hc Hv. destruct (accepted_rows svc u Hv) as (sales & Hrows & Hpos).
  pose proof (get_dashboard_stats_online svc now u Hc) as E.
  cbv zeta in E. rewrite Hrows in E.
  unfold DashboardApi.get_dashboard_stats. rewrite E.
  eexists. split; [reflexivity|].
  cbn [DashboardStats.totalSales DashboardStats.totalItems
       DashboardStats.avgPrice DashboardStats.thisMonth].
  unfold Cosmos.SUM, Cosmos.AVG, Cosmos.COUNT.
  rewrite filter_model_dump, !amounts_model_dump, length_map.
  cbn [option_map].
  destruct (Qsum_filter_le
              (fun s => String.prefix (Py.strftime_Y_m now) (SaleItem.saleDate s))
              sales Hpos) as [B0 B1].
  split; [exact B0|]. split; [exact B1|]. split; [lia|].
  intros Hn. destruct sales as [|s sales]; [simpl in Hn; lia|].
  cbn [map]. inversion Hpos as [|? ? Hs Hl]; subst.
  assert (P : 0 < Cosmos.Qsum (SaleItem.amount s :: map SaleItem.amount sales)).
  { apply Qsum_pos. constructor; [exact Hs|].
    rewrite Forall_map. exact Hl. }
  split; [exact P|].
  apply Qlt_shift_div_l; [|now rewrite Qmult_0_l].
  unfold Qlt. simpl. lia.
Qed.

Lemma dashboard_stats_bounds_witness :
  exists st,
    DashboardApi.get_dashboard_stats Sample.online Sample.now "u1" = Py.Ok st /\
    DashboardStats.thisMonth st <= DashboardStats.totalSales st.
Proof.
  destruct (dashboard_stats_bounds Sample.online Sample.now "u1")
    as (st & H1 & _ & H2 & _).
  - reflexivity.
  - intros d [<-|[<-|[]]] _; eexists; reflexivity.
  - exists st. split; assumption.
Defined.



(** X13.  The dashboard route carries the statistics and the recent
    sales together.  With a client, for a tenant whose documents are all
    accepted, it succeeds with the statistics of the stats route, and
    its recent list, asked with a limit of 5, holds every sale of the
    tenant: the limit only sizes the pages. *)
Theorem dashboard_data_complete
  (svc : CosmosService.t) (now : Py.datetime) (u : string) :
  CosmosService.client svc = true ->
  (forall d, In d (CosmosService.container svc) -> SaleDict.userId d = u ->
             exists s, SaleItem.validate d = Py.Ok s) ->
  exists st l,
    DashboardApi.get_dashboard_data svc now u
    = Py.Ok (DashboardApi.mkDashboardData st l) /\
    DashboardApi.get_dashboard_stats svc now u = Py.Ok st /\
    DashboardApi.get_recent_sales svc 5 u = Py.Ok l /\
    length l = length (Cosmos.where_userId u (CosmosService.container svc)).
Proof.
  intros Hc Hv. destruct (accepted_rows svc u Hv) as (sales & Hrows & _).
  assert (R : exists l, forall limit,
             CosmosService.get_recent_sales svc u limit = Py.Ok l /\
             length l = length sales).
  { unfold CosmosService.get_recent_sales. rewrite Hc. cbn [negb]. rewrite Hrows.
    set (rows := Cosmos.order_by_saleDate_desc (map SaleItem.model_dump sales)).
    assert (P : Permutation rows (map SaleItem.model_dump sales))
      by apply order_by_saleDate_desc_perm.
    assert (A : forall d, In d rows -> exists q,
                 RecentSale.validate (Cosmos.select_recent d) = Py.Ok q).
    { intros d Hd. apply (Permutation_in _ P) in Hd.
      apply in_map_iff in Hd as (s & <- & _). eexists. reflexivity. }
    assert (C : exists l,
               Py.comprehension RecentSale.validate (map Cosmos.select_recent rows)
               = Py.Ok l /\ length l = length rows).
    { clear P. induction rows as [|d rows IH]; [now exists []|].
      destruct (A d (or_introl eq_refl)) as (q & Hq).
      destruct IH as (l & Hl & Hn); [intros x Hx; apply A; now right|].
      exists (q :: l). simpl. rewrite Hq, Hl. split; [reflexivity|].
      simpl. now rewrite Hn. }
    destruct C as (l & Hl & Hn). exists l. intros limit.
    rewrite list_query_items_all, Hl. split; [reflexivity|].
    rewrite Hn, (Permutation_length P). apply length_map. }
  destruct R as (l & R).
  pose proof (get_dashboard_stats_online svc now u Hc) as E. cbv zeta in E.
  eexists _, l. split; [|split; [|split]].
  - unfold DashboardApi.get_dashboard_data.
    rewrite E. destruct (R 5%Z) as [-> _]. reflexivity.
  - unfold DashboardApi.get_dashboard_stats. now rewrite E.
  - unfold DashboardApi.get_recent_sales. destruct (R (Py.min 5 20)) as [-> _].
    reflexivity.
  - destruct (R 5%Z) as [_ ->]. rewrite Hrows. symmetry. apply length_map.
Qed.

Lemma dashboard_data_complete_witness :
  exists st l,
    DashboardApi.get_dashboard_data Sample.crowded Sample.now "u1"
    = Py.Ok (DashboardApi.mkDashboardData st l) /\
    length l = 21%nat.
Proof.
  destruct (dashboard_data_complete Sample.crowded Sample.now "u1")
    as (st & l & H1 & _ & _ & H2).
  - reflexivity.
  - intros d Hd _. simpl in Hd.
    repeat (destruct Hd as [<-|Hd]; [eexists; reflexivity|]). contradiction.
  - exists st, l. split; [exact H1 | exact H2].
Defined.

(** ** Allowed origins *)

Section Origins.

Let chars := list_ascii_of_string.

Lemma split_not_nil (sep : ascii) (s : string) : Py.split sep s <> [].
Proof.
  destruct s as [|c r]; simpl; [discriminate|].
  destruct (Ascii.eqb c sep); [discriminate|].
  destruct (Py.split sep r); discriminate.
Qed.

Lemma split_length (sep : ascii) (s : string) :
  length (Py.split sep s) = S (length (filter (Ascii.eqb sep) (chars s))).
Proof.
  induction s as [|c r IH]; simpl; [reflexivity|].
  rewrite (Ascii.eqb_sym sep c).
  destruct (Ascii.eqb c sep); simpl; [now rewrite IH|].
  destruct (Py.split sep r) eqn:E; [now elim (split_not_nil sep r)|].
  simpl in *. exact IH.
Qed.

Lemma split_chars (sep : ascii) (s x : string) (c : ascii) :
  In x (Py.split sep s) -> In c (chars x) -> In c (chars s) /\ c <> sep.
Proof.
  revert x. induction s as [|a r IH]; simpl; intros x Hx Hc.
  - destruct Hx as [<-|[]]. destruct Hc.
  - destruct (Ascii.eqb_spec a sep) as [->|Hne].
    + destruct Hx as [<-|Hx]; [destruct Hc|].
      destruct (IH x Hx Hc). auto.
    + destruct (Py.split sep r) as [|y l] eqn:E;
        [now elim (split_not_nil sep r)|].
      destruct Hx as [<-|Hx].
      * destruct Hc as [<-|Hc]; [auto|].
        destruct (IH y (or_introl eq_refl) Hc). auto.
      * destruct (IH x (or_intror Hx) Hc). auto.
Qed.

Lemma split_concat (sep : ascii) (s : string) :
  String.concat (String sep EmptyString) (Py.split sep s) = s.
Proof.
  induction s as [|a r IH]; simpl; [reflexivity|].
  destruct (Ascii.eqb_spec a sep) as [->|Hne].
  - destruct (Py.split sep r) as [|y l] eqn:E;
      [now elim (split_not_nil sep r)|].
    simpl in *. now rewrite IH.
  - destruct (Py.split sep r) as [|y l] eqn:E;
      [now elim (split_not_nil sep r)|].
    destruct l; simpl in *; now rewrite <- IH.
Qed.

Lemma lstrip_chars (s : string) (c : ascii) :
  In c (chars (Py.lstrip s)) -> In c (chars s).
Proof.
  induction s as [|a r IH]; simpl; [auto|].
  destruct (Py.isspace a); simpl; auto.
Qed.

Lemma rstrip_chars (s : string) (c : ascii) :
  In c (chars (Py.rstrip s)) -> In c (chars s).
Proof.
  induction s as [|a r IH]; simpl; [auto|].
  destruct (Py.rstrip r) as [|b t].
  - destruct (Py.isspace a); simpl; [contradiction|]. intros [<-|[]]. now left.
  - simpl in *. intros [<-|H]; auto.
Qed.

Lemma rstrip_idem (s : string) : Py.rstrip (Py.rstrip s) = Py.rstrip s.
Proof.
  induction s as [|a r IH]; simpl; [reflexivity|].
  destruct (Py.rstrip r) as [|b t] eqn:E.
  - destruct (Py.isspace a) eqn:Sa; simpl; [reflexivity|]. now rewrite Sa.
  - simpl. simpl in IH. now rewrite IH.
Qed.

Lemma lstrip_strip (s : string) : Py.lstrip (Py.strip s) = Py.strip s.
Proof.
  unfold Py.strip. induction s as [|a r IH]; simpl; [reflexivity|].
  destruct (Py.isspace a) eqn:Sa; [exact IH|]. simpl.
  destruct (Py.rstrip r); rewrite ?Sa; simpl; now rewrite Sa.
Qed.

Lemma strip_no_space (s : string) :
  (forall c, In c (chars s) -> Py.isspace c = false) -> Py.strip s = s.
Proof.
  intros H. unfold Py.strip.
  assert (L : Py.lstrip s = s).
  { destruct s as [|a r]; simpl; [reflexivity|].
    now rewrite (H a (or_introl eq_refl)). }
  rewrite L. clear L. induction s as [|a r IH]; simpl; [reflexivity|].
  rewrite IH by (intros c Hc; apply H; now right).
  destruct r; [|reflexivity]. now rewrite (H a (or_introl eq_refl)).
Qed.

End Origins.



(** ** Start-up *)

(** X15.  The constructor leaves the service without a client only in
    the local configuration (no [AZURE_CLIENT_ID]) and only when the
    connection string is a placeholder or the client cannot be built
    from it.  A missing or empty connection string, and in production a
    missing or empty endpoint, is a [ValueError] instead: the service
    object is not created. *)
Theorem init_without_client
  (DefaultAzureCredential : Py.result unit)
  (CosmosClient from_connection_string : string -> Py.result unit)
  (environ : list (string * string)) (remote : Cosmos.Container) :
  let init := CosmosService.init DefaultAzureCredential CosmosClient
                from_connection_string environ remote in
  let production := Py.truthy_str (Py.getenv environ "AZURE_CLIENT_ID") in
  let connection_string := Py.getenv environ "COSMOSDB_CONNECTION_STRING" in
  (forall svc, init = Py.Ok svc ->
     CosmosService.container svc = remote /\
     (CosmosService.client svc = false <->
      production = false /\
      exists x, connection_string = Some x /\ x <> EmptyString /\
        (Py.contains "your-cosmosdb-account" x = true \/
         Py.contains "your-primary-key" x = true \/
         exists e, from_connection_string x = Py.Raise e))) /\
  (production = false -> Py.truthy_str connection_string = false ->
   init = Py.Raise (Py.ValueError
     "COSMOSDB_CONNECTION_STRING environment variable is required for local development")) /\
  (production = true -> DefaultAzureCredential = Py.Ok tt ->
   Py.truthy_str (Py.getenv environ "COSMOSDB_ENDPOINT") = false ->
   init = Py.Raise (Py.ValueError
     "COSMOSDB_ENDPOINT environment variable is required for production")).
Proof.
  cbv zeta. unfold CosmosService.init.
  destruct (Py.truthy_str (Py.getenv environ "AZURE_CLIENT_ID")).
  - split; [|split; [discriminate|]].
    + intros svc H.
      destruct DefaultAzureCredential as [[]|e]; simpl in H; [|discriminate].
      destruct (Py.truthy_str (Py.getenv environ "COSMOSDB_ENDPOINT"));
        simpl in H; [|discriminate].
      destruct (CosmosClient _); simpl in H; [|discriminate].
      injection H as <-. split; [reflexivity|]. simpl.
      split; [discriminate | intros [H _]; discriminate H].
    + intros _ -> ->. reflexivity.
  - split; [|split; [|discriminate]].
    + intros svc H.
      destruct (Py.getenv environ "COSMOSDB_CONNECTION_STRING") as [[|a r]|];
        simpl in H; try discriminate.
      set (x := String a r) in *.
      destruct (Py.contains "your-cosmosdb-account" x) eqn:C1; simpl in H.
      { injection H as <-. split; [reflexivity|]. simpl.
        split; [|reflexivity]. intros _. split; [reflexivity|].
        exists x. repeat split; [discriminate | now left]. }
      destruct (Py.contains "your-primary-key" x) eqn:C2; simpl in H.
      { injection H as <-. split; [reflexivity|]. simpl.
        split; [|reflexivity]. intros _. split; [reflexivity|].
        exists x. repeat split; [discriminate | now right; left]. }
      destruct (from_connection_string x) as [[]|e] eqn:F;
        injection H as <-; (split; [reflexivity|]); simpl.
      * split; [discriminate|].
        intros (_ & y & [= <-] & _ & [K|[K|(e & K)]]); congruence.
      * split; [|reflexivity]. intros _. split; [reflexivity|].
        exists x. repeat split; [discriminate | right; right; eauto].
    + intros _ H. now rewrite H.
Qed.

Lemma init_without_client_witness :
  exists svc,
    CosmosService.init (Py.Ok tt) (fun _ => Py.Ok tt) (fun _ => Py.Ok tt)
      [("COSMOSDB_CONNECTION_STRING",
        "AccountEndpoint=https://your-cosmosdb-account.documents.azure.com:443/;AccountKey=your-primary-key;")]
      []
    = Py.Ok svc /\ CosmosService.client svc = false.
Proof.
  exists (CosmosService.mk false []). split; [reflexivity|].
  destruct (init_without_client (Py.Ok tt) (fun _ => Py.Ok tt)
              (fun _ => Py.Ok tt)
              [("COSMOSDB_CONNECTION_STRING",
                "AccountEndpoint=https://your-cosmosdb-account.documents.azure.com:443/;AccountKey=your-primary-key;")]
              []) as [H _].
  destruct (H (CosmosService.mk false []) eq_refl) as [_ [_ H2]].
  apply H2. split; [reflexivity|]. eexists. split; [reflexivity|].
  split; [discriminate | now left].
Defined.
